(** * ZhiCounterTimerController: a Sardana counter/timer plugin for the
      boxcar averagers of a Zurich Instruments UHF lock-in amplifier.

    Shallow embedding of [ZhiCounterTimerController.py].

    - The vendor client library ([zhinst.ziPython], [zhinst.utils]), the
      wall clock and [warnings]/[print] are the outside world.  Every call
      into it is recorded, in order, in a [trace]; what the world answers
      comes from an [environment].  Vendor calls are taken to return.
    - Python exceptions are the [Raises] branch of [outcome].  A method
      that raises keeps the mutations it made before raising.
    - Sample values are IEEE binary64 numbers ([PrimFloat.float]); time
      stamps are the 64-bit tick counter of the instrument, in [Z].
    - [np.mean] and [scipy.stats.sem] are library functions whose
      summation order is not fixed by this repository; they are taken as
      the fields of a [numlib] record. *)

From Stdlib Require Import ZArith List String Ascii Bool Lia PrimFloat.
From Stdlib Require DecimalString Uint63.
Import ListNotations.

#[local] Set Warnings "-register-all".

Local Open Scope string_scope.
Local Open Scope list_scope.
Local Open Scope Z_scope.

(** ** Python exceptions and outcomes *)

Inductive exn : Type :=
| Exception (msg : string)
| TypeError
| KeyError (key : string)
| IndexError
| ValueError
| AttributeError (attr : string).

Inductive outcome (A : Type) : Type :=
| Returns (a : A)
| Raises (e : exn).

Arguments Returns {A} a.
Arguments Raises {A} e.

Definition obind {A B : Type} (m : outcome A) (k : A -> outcome B) : outcome B :=
  match m with
  | Returns a => k a
  | Raises e => Raises e
  end.

Notation "x <- m ;; k" := (obind m (fun x => k))
  (at level 61, m at next level, right associativity).

(** ** Python values *)

(** Operands of the [*] operator that the constructor evaluates. *)
Inductive pyval : Type :=
| PyStr (s : string)
| PyInt (n : Z).

Fixpoint str_repeat (s : string) (n : nat) : string :=
  match n with
  | O => ""
  | S n' => (s ++ str_repeat s n')%string
  end.

(** [a * b]: a sequence may be multiplied by an integer only. *)
Definition py_mul (a b : pyval) : outcome pyval :=
  match a, b with
  | PyInt x, PyInt y => Returns (PyInt (x * y))
  | PyStr s, PyInt n => Returns (PyStr (str_repeat s (Z.to_nat n)))
  | PyInt n, PyStr s => Returns (PyStr (str_repeat s (Z.to_nat n)))
  | PyStr _, PyStr _ => Raises TypeError
  end.

(** What [poll] hands back: nested dictionaries whose leaves are numpy
    arrays.  [PyList] is there for the [[]] that [startAcq] stores. *)
Inductive pyobj : Type :=
| PyDict (items : list (string * pyobj))
| PyList (items : list pyobj)
| F64Array (a : list float)
| U64Array (a : list Z).

Fixpoint dict_get (items : list (string * pyobj)) (k : string) : option pyobj :=
  match items with
  | [] => None
  | (k', v) :: rest => if String.eqb k' k then Some v else dict_get rest k
  end.

(** [o[k]] for a string key [k]. *)
Definition getitem (o : pyobj) (k : string) : outcome pyobj :=
  match o with
  | PyDict items =>
      match dict_get items k with
      | Some v => Returns v
      | None => Raises (KeyError k)
      end
  | PyList _ => Raises TypeError
  | F64Array _ => Raises IndexError
  | U64Array _ => Raises IndexError
  end.

(** A number in the tuple that [readData] returns. *)
Inductive scalar : Type :=
| Float (x : float)
| Int (n : Z).

(** [l[i]] for an integer [i], negative indices counting from the end. *)
Definition py_index {A : Type} (l : list A) (i : Z) : outcome A :=
  let n := Z.of_nat (List.length l) in
  if (0 <=? i) && (i <? n) then
    match nth_error l (Z.to_nat i) with
    | Some x => Returns x
    | None => Raises IndexError
    end
  else if (- n <=? i) && (i <? 0) then
    match nth_error l (Z.to_nat (n + i)) with
    | Some x => Returns x
    | None => Raises IndexError
    end
  else Raises IndexError.

(** [re.search(pat, s)] for a pattern without metacharacters: is [pat] a
    substring of [s]? *)
Fixpoint re_search (pat s : string) : bool :=
  String.prefix pat s ||
  match s with
  | EmptyString => false
  | String _ s' => re_search pat s'
  end.

(** [posixpath.join(a, b)]. *)
Definition ends_with_slash (a : string) : bool :=
  match String.get (String.length a - 1)%nat a with
  | Some c => Ascii.eqb c "/"%char
  | None => false
  end.

Definition path_join (a b : string) : string :=
  if String.prefix "/" b then b
  else if (String.length a =? 0)%nat || ends_with_slash a then (a ++ b)%string
  else (a ++ "/" ++ b)%string.

(** ['%d' % n]. *)
Definition fmt_d (n : Z) : string :=
  DecimalString.NilZero.string_of_int (Z.to_int n).

(** ** numpy on one-dimensional arrays *)

(** [a & b] on boolean arrays, with numpy's broadcasting of a length-one
    operand; other length mismatches raise. *)
Fixpoint zip_and (a b : list bool) : list bool :=
  match a, b with
  | x :: a', y :: b' => (x && y) :: zip_and a' b'
  | _, _ => []
  end.

Definition np_and (a b : list bool) : outcome (list bool) :=
  if (List.length a =? List.length b)%nat then Returns (zip_and a b)
  else if (List.length a =? 1)%nat then Returns (map (andb (hd false a)) b)
  else if (List.length b =? 1)%nat then Returns (map (fun x => x && hd false b) a)
  else Raises ValueError.

(** The elements of [a] at which [mask] holds. *)
Fixpoint compress {A : Type} (a : list A) (mask : list bool) : list A :=
  match a, mask with
  | x :: a', m :: mask' => if m then x :: compress a' mask' else compress a' mask'
  | _, _ => []
  end.

(** [a[mask]]: the mask must be as long as the array. *)
Definition np_getmask {A : Type} (a : list A) (mask : list bool) : outcome (list A) :=
  if (List.length a =? List.length mask)%nat then Returns (compress a mask)
  else Raises IndexError.

(** [np.diff] on a uint64 array: differences wrap around modulo 2^64. *)
Fixpoint np_diff (a : list Z) : list Z :=
  match a with
  | x :: (y :: _) as rest => ((y - x) mod 2 ^ 64) :: np_diff rest
  | _ => []
  end.

(** The library reductions used by [readData]. *)
Record numlib : Type := {
  np_mean : list float -> float;      (* np.mean(a, dtype=np.float64) *)
  np_mean_u64 : list Z -> float;      (* np.mean of a uint64 array *)
  sem : list float -> float           (* scipy.stats.sem *)
}.

(** ** The outside world *)

Inductive call : Type :=
| ZiDAQServer (ip : string) (port api_level : Z)
| ConnectDevice (device iface : string)
| Connect
| GetDefaultSettingsPath
| LoadSettings (device settings_path : string)
| GetByte (path : string)
| GetDouble (path : string)
| GetConnectionAPILevel
| Warn (msg : string)
| Sync
| Subscribe (path : string)
| Flush
| Poll (poll_length : float) (poll_timeout poll_flags : Z)
       (poll_return_flat_dict : bool)
| Unsubscribe (path : string)
| Time
| Print (msg : string).

(** Calls made so far, oldest first. *)
Definition trace : Type := list call.

(** What the world answers.  [time_reply] and [poll_reply] are indexed by
    the position of the call in the trace. *)
Record environment : Type := {
  default_settings_path : string;
  getByte_reply : string -> string;
  getDouble_reply : string -> float;
  connection_api_level : Z;
  time_reply : nat -> float;
  poll_reply : nat -> pyobj
}.

(** ** Methods: state and exceptions *)

Definition M (S A : Type) : Type := S -> outcome A * S.

Definition ret {S A : Type} (a : A) : M S A := fun s => (Returns a, s).

Definition raise {S A : Type} (e : exn) : M S A := fun s => (Raises e, s).

Definition bind {S A B : Type} (m : M S A) (k : A -> M S B) : M S B :=
  fun s =>
    match m s with
    | (Returns a, s') => k a s'
    | (Raises e, s') => (Raises e, s')
    end.

Notation "x <~ m ;; k" := (bind m (fun x => k))
  (at level 61, m at next level, right associativity).
Notation "m ;;; k" := (bind m (fun _ => k))
  (at level 61, right associativity).

Definition lift {S A : Type} (o : outcome A) : M S A := fun s => (o, s).

(** Make a call; the result is its position in the trace. *)
Definition emit (c : call) : M trace nat :=
  fun tr => (Returns (List.length tr), tr ++ [c]).

(** [time.time()] *)
Definition time (env : environment) : M trace float :=
  k <~ emit Time ;; ret (time_reply env k).

(** ** class boxcars *)

Module Boxcars.

(** The handle returned by [zh.ziDAQServer(ip, port, api_level)]. *)
Inductive ziDAQServer : Type :=
| Session (ip : string) (port api_level : Z).

(** The attributes of a [boxcars] object.  [daq = None] after [del
    self.daq]; [data = None] until [startAcq] first assigns it;
    [acqStartTime] and [acqEndTime] are Python's [None] until then. *)
Record boxcars : Type := {
  daq : option ziDAQServer;
  device : string;
  iface : string;
  timeOut : Z;
  acqStartTime : option float;
  acqEndTime : option float;
  isAcquiring : bool;
  devtype : string;
  options : string;
  clock : float;
  data : option pyobj
}.

Definition set_daq (v : option ziDAQServer) (b : boxcars) : boxcars :=
  {| daq := v; device := device b; iface := iface b; timeOut := timeOut b;
     acqStartTime := acqStartTime b; acqEndTime := acqEndTime b;
     isAcquiring := isAcquiring b; devtype := devtype b;
     options := options b; clock := clock b; data := data b |}.

Definition set_acqStartTime (v : option float) (b : boxcars) : boxcars :=
  {| daq := daq b; device := device b; iface := iface b; timeOut := timeOut b;
     acqStartTime := v; acqEndTime := acqEndTime b;
     isAcquiring := isAcquiring b; devtype := devtype b;
     options := options b; clock := clock b; data := data b |}.

Definition set_acqEndTime (v : option float) (b : boxcars) : boxcars :=
  {| daq := daq b; device := device b; iface := iface b; timeOut := timeOut b;
     acqStartTime := acqStartTime b; acqEndTime := v;
     isAcquiring := isAcquiring b; devtype := devtype b;
     options := options b; clock := clock b; data := data b |}.

Definition set_isAcquiring (v : bool) (b : boxcars) : boxcars :=
  {| daq := daq b; device := device b; iface := iface b; timeOut := timeOut b;
     acqStartTime := acqStartTime b; acqEndTime := acqEndTime b;
     isAcquiring := v; devtype := devtype b;
     options := options b; clock := clock b; data := data b |}.

Definition set_data (v : option pyobj) (b : boxcars) : boxcars :=
  {| daq := daq b; device := device b; iface := iface b; timeOut := timeOut b;
     acqStartTime := acqStartTime b; acqEndTime := acqEndTime b;
     isAcquiring := isAcquiring b; devtype := devtype b;
     options := options b; clock := clock b; data := v |}.

(** The sample path of boxcar [n]: ['/%s/boxcars/%d/sample' % (device, n)]. *)
Definition sample_path (dev : string) (n : Z) : string :=
  ("/" ++ dev ++ "/boxcars/" ++ fmt_d n ++ "/sample")%string.

Definition warning_text_1 : string :=
  "ziDAQServer is using API Level 1, it is strongly recommended ".

Definition warning_text_2 : string :=
  "to use API Level 6 in order to obtain boxcar data with timestamps.".

(** [warnings.warn(msg)] with the argument an expression still to be
    evaluated: an argument that raises is raised before [warn] runs; the
    text of the warning is [str(msg)]. *)
Definition warnings_warn (msg : outcome pyval) : M trace unit :=
  v <~ lift msg ;;
  match v with
  | PyStr s => emit (Warn s) ;;; ret tt
  | PyInt n => emit (Warn (fmt_d n)) ;;; ret tt
  end.

(** [boxcars.__init__].  [repRate] is accepted and not used. *)
Definition init (env : environment) (ip : string) (port api_level : Z)
    (dev ifc settings : string) (repRate timeOut_ : Z) : M trace boxcars :=
  emit (ZiDAQServer ip port api_level) ;;;
  let daq_ := Session ip port api_level in
  emit (ConnectDevice dev ifc) ;;;
  emit Connect ;;;
  emit GetDefaultSettingsPath ;;;
  let settings_path := path_join (default_settings_path env) settings in
  emit (LoadSettings dev settings_path) ;;;
  emit (GetByte ("/" ++ dev ++ "/features/devtype")%string) ;;;
  let devtype_ := getByte_reply env ("/" ++ dev ++ "/features/devtype")%string in
  emit (GetByte ("/" ++ dev ++ "/features/options")%string) ;;;
  let options_ := getByte_reply env ("/" ++ dev ++ "/features/options")%string in
  emit (GetDouble ("/" ++ dev ++ "/clockbase")%string) ;;;
  let clock_ := getDouble_reply env ("/" ++ dev ++ "/clockbase")%string in
  (if negb (re_search "BOX" options_)
   then raise (Exception
     "This example can only be ran on a UHF with the BOX option enabled.")
   else ret tt) ;;;
  emit GetConnectionAPILevel ;;;
  (if negb (connection_api_level env =? 6)
   then warnings_warn (py_mul (PyStr warning_text_1) (PyStr warning_text_2))
   else ret tt) ;;;
  emit Sync ;;;
  emit (Subscribe (sample_path dev 0)) ;;;
  emit (Subscribe (sample_path dev 1)) ;;;
  ret {| daq := Some daq_; device := dev; iface := ifc; timeOut := timeOut_;
         acqStartTime := None; acqEndTime := None; isAcquiring := false;
         devtype := devtype_; options := options_; clock := clock_;
         data := None |}.

(** Methods act on the object and on the world. *)
Definition method (A : Type) : Type := M (boxcars * trace) A.

Definition world {A : Type} (m : M trace A) : method A :=
  fun s =>
    match m (snd s) with
    | (o, tr) => (o, (fst s, tr))
    end.

Definition assign (f : boxcars -> boxcars) : method unit :=
  fun s => (Returns tt, (f (fst s), snd s)).

(** [self.daq.<call>]: an [AttributeError] once the attribute is deleted. *)
Definition daq_call (c : call) : method nat :=
  fun s =>
    match daq (fst s) with
    | Some _ => world (emit c) s
    | None => (Raises (AttributeError "daq"), s)
    end.

(** [boxcars.pollData] *)
Definition pollData (env : environment) (intTime : float) : method unit :=
  let poll_length := intTime in
  let poll_timeout := 500 in
  let poll_flags := 4 in
  let poll_return_flat_dict := false in
  daq_call Flush ;;;
  k <~ daq_call (Poll poll_length poll_timeout poll_flags
                      poll_return_flat_dict) ;;
  assign (set_data (Some (poll_reply env k))) ;;;
  assign (set_isAcquiring false) ;;;
  t <~ world (time env) ;;
  assign (set_acqEndTime (Some t)).

(** [boxcars.startAcq] *)
Definition startAcq (env : environment) (intTime : float) : method unit :=
  assign (set_isAcquiring true) ;;;
  t <~ world (time env) ;;
  assign (set_acqStartTime (Some t)) ;;;
  assign (set_data (Some (PyList []))) ;;;
  pollData env intTime.

(** [boxcars.close] *)
Definition close : method unit :=
  daq_call (Unsubscribe "*") ;;;
  assign (set_daq None).

(** [d[dev]['boxcars'][idx]['sample'][leaf]] *)
Definition sample_leaf (d : pyobj) (dev idx leaf : string) : outcome pyobj :=
  a <- getitem d dev ;;
  b <- getitem a "boxcars" ;;
  c <- getitem b idx ;;
  s <- getitem c "sample" ;;
  getitem s leaf.

(** The vendor library delivers ['value'] as a float64 array and
    ['timestamp'] as a uint64 array.  What numpy would do with a leaf of
    another shape is not modelled: such a leaf is refused here. *)
Definition as_f64 (o : pyobj) : outcome (list float) :=
  match o with
  | F64Array a => Returns a
  | _ => Raises TypeError
  end.

Definition as_u64 (o : pyobj) : outcome (list Z) :=
  match o with
  | U64Array a => Returns a
  | _ => Raises TypeError
  end.

(** [self.data], an [AttributeError] while the attribute does not exist. *)
Definition self_data (self : boxcars) : outcome pyobj :=
  match data self with
  | Some d => Returns d
  | None => Raises (AttributeError "data")
  end.

(** [(ts >= lo) & (ts <= hi) & (~np.isnan(v))] *)
Definition select_mask (ts : list Z) (v : list float) (lo hi : Z)
  : outcome (list bool) :=
  m <- np_and (map (fun t => lo <=? t) ts) (map (fun t => t <=? hi) ts) ;;
  np_and m (map (fun x => negb (is_nan x)) v).

(** [a - b] on two attributes holding a float or [None]. *)
Definition py_sub (a b : option float) : outcome float :=
  match a, b with
  | Some x, Some y => Returns (x - y)%float
  | _, _ => Raises TypeError
  end.

(** [self.data[self.device]['boxcars'][idx]['sample']['value']] *)
Definition sample_value (self : boxcars) (idx : string) : outcome (list float) :=
  d <- self_data self ;;
  o <- sample_leaf d (device self) idx "value" ;;
  as_f64 o.

(** [self.data[self.device]['boxcars'][idx]['sample']['timestamp']] *)
Definition sample_timestamp (self : boxcars) (idx : string) : outcome (list Z) :=
  d <- self_data self ;;
  o <- sample_leaf d (device self) idx "timestamp" ;;
  as_u64 o.

(** [boxcars.readData] *)
Definition readData (np : numlib) (self : boxcars) : outcome (list scalar) :=
  boxcar1_value <- sample_value self "0" ;;
  boxcar1_timestamp <- sample_timestamp self "0" ;;
  boxcar2_value <- sample_value self "1" ;;
  boxcar2_timestamp <- sample_timestamp self "1" ;;
  first1 <- py_index boxcar1_timestamp 0 ;;
  first2 <- py_index boxcar2_timestamp 0 ;;
  let maxStartTime := Z.max first1 first2 in
  last1 <- py_index boxcar1_timestamp (-1) ;;
  last2 <- py_index boxcar2_timestamp (-1) ;;
  let minFinishTime := Z.min last1 last2 in
  select1 <- select_mask boxcar1_timestamp boxcar1_value
               maxStartTime minFinishTime ;;
  select2 <- select_mask boxcar2_timestamp boxcar2_value
               maxStartTime minFinishTime ;;
  ts1 <- np_getmask boxcar1_timestamp select1 ;;
  let freq := (1 / (np_mean_u64 np (np_diff ts1) / clock self))%float in
  duration <- py_sub (acqEndTime self) (acqStartTime self) ;;
  v1 <- np_getmask boxcar1_value select1 ;;
  let mean1 := np_mean np v1 in
  v2 <- np_getmask boxcar2_value select2 ;;
  let mean2 := np_mean np v2 in
  let rel := (mean1 / mean2)%float in
  let diff := abs (mean1 - mean2)%float in
  s1 <- np_getmask boxcar1_value select1 ;;
  s2 <- np_getmask boxcar2_value select2 ;;
  n1 <- np_getmask boxcar1_value select1 ;;
  Returns [Float mean1; Float mean2; Float (sem np s1); Float (sem np s2);
           Int (Z.of_nat (List.length n1)); Float freq; Float duration;
           Float rel; Float diff].

End Boxcars.

(** ** class ZhiCounterTimerController *)

Module Controller.

(** [sardana.State] *)
Inductive State : Type :=
| On | Off | Close | Open | Insert | Extract | Moving | Standby
| Fault | Init | Running | Alarm | Disable | Unknown | Invalid.

(** The controller: its seven properties as the framework sets them from
    [ctrl_properties], the [boxcars] object and the two attributes
    assigned at the end of the constructor. *)
Record ZhiCounterTimerController : Type := {
  IP : string;
  port : Z;
  device : string;
  iface : string;
  settings : string;
  repRate : Z;
  timeOut : Z;
  zhi : Boxcars.boxcars;
  data : list scalar;
  isAquiring : bool
}.

Definition set_zhi (z : Boxcars.boxcars) (c : ZhiCounterTimerController)
  : ZhiCounterTimerController :=
  {| IP := IP c; port := port c; device := device c; iface := iface c;
     settings := settings c; repRate := repRate c; timeOut := timeOut c;
     zhi := z; data := data c; isAquiring := isAquiring c |}.

Definition set_data (d : list scalar) (c : ZhiCounterTimerController)
  : ZhiCounterTimerController :=
  {| IP := IP c; port := port c; device := device c; iface := iface c;
     settings := settings c; repRate := repRate c; timeOut := timeOut c;
     zhi := zhi c; data := d; isAquiring := isAquiring c |}.

(** [ZhiCounterTimerController.__init__], after the base class has set
    the properties. *)
Definition init (env : environment) (IP_ : string) (port_ : Z)
    (device_ iface_ settings_ : string) (repRate_ timeOut_ : Z)
  : M trace ZhiCounterTimerController :=
  emit (Print "ZI Boxcar Initialization ...") ;;;
  z <~ Boxcars.init env IP_ port_ 6 device_ iface_ settings_
         repRate_ timeOut_ ;;
  emit (Print ("SUCCESS for device " ++ device_ ++
               " connected to dataserver " ++ IP_ ++ ":" ++ fmt_d port_ ++
               " with settings " ++ settings_)%string) ;;;
  ret {| IP := IP_; port := port_; device := device_; iface := iface_;
         settings := settings_; repRate := repRate_; timeOut := timeOut_;
         zhi := z; data := []; isAquiring := false |}.

Definition method (A : Type) : Type := M (ZhiCounterTimerController * trace) A.

Definition self : method ZhiCounterTimerController :=
  fun s => (Returns (fst s), s).

Definition assign (f : ZhiCounterTimerController -> ZhiCounterTimerController)
  : method unit :=
  fun s => (Returns tt, (f (fst s), snd s)).

(** A method call on [self.zhi]. *)
Definition on_zhi {A : Type} (m : Boxcars.method A) : method A :=
  fun s =>
    match m (zhi (fst s), snd s) with
    | (o, (z, tr)) => (o, (set_zhi z (fst s), tr))
    end.

Definition AddDevice (axis : Z) : method unit := ret tt.

Definition DeleteDevice (axis : Z) : method unit := ret tt.

(** [ReadOne] *)
Definition ReadOne (np : numlib) (axis : Z) : method scalar :=
  (if axis =? 0
   then r <~ on_zhi (fun s => (Boxcars.readData np (fst s), s)) ;;
        assign (set_data r)
   else ret tt) ;;;
  c <~ self ;;
  lift (py_index (data c) axis).

(** [StateOne] *)
Definition StateOne (c : ZhiCounterTimerController) (axis : Z)
  : State * string :=
  if Boxcars.isAcquiring (zhi c)
  then (Moving, "Counter is acquiring")
  else (On, "Counter is stopped").

(** [StartOne] *)
Definition StartOne (env : environment) (axis : Z) (value : float)
  : method unit :=
  if axis =? 0 then on_zhi (Boxcars.startAcq env value) else ret tt.

Definition StartAll : method unit := ret tt.

Definition LoadOne (axis : Z) (value : float) (repetitions : Z)
    (latency : float) : method unit := ret tt.

Definition StopOne (axis : Z) : method unit := ret tt.

(** *** A client of the controller

    The calls a client can make on a constructed controller and on the
    [boxcars] object it holds.  A call that raises leaves the objects as
    they were at the raise, and the client goes on. *)
Inductive op : Type :=
| CallAddDevice (axis : Z)
| CallDeleteDevice (axis : Z)
| CallReadOne (axis : Z)
| CallStateOne (axis : Z)
| CallStartOne (axis : Z) (value : float)
| CallStartAll
| CallLoadOne (axis : Z) (value : float) (repetitions : Z) (latency : float)
| CallStopOne (axis : Z)
| CallZhiStartAcq (intTime : float)
| CallZhiPollData (intTime : float)
| CallZhiReadData
| CallZhiClose.

Definition forget {A : Type} (m : method A) : method unit := m ;;; ret tt.

Definition call_op (env : environment) (np : numlib) (o : op) : method unit :=
  match o with
  | CallAddDevice axis => AddDevice axis
  | CallDeleteDevice axis => DeleteDevice axis
  | CallReadOne axis => forget (ReadOne np axis)
  | CallStateOne axis => c <~ self ;; forget (ret (StateOne c axis))
  | CallStartOne axis value => StartOne env axis value
  | CallStartAll => StartAll
  | CallLoadOne axis value repetitions latency =>
      LoadOne axis value repetitions latency
  | CallStopOne axis => StopOne axis
  | CallZhiStartAcq intTime => on_zhi (Boxcars.startAcq env intTime)
  | CallZhiPollData intTime => on_zhi (Boxcars.pollData env intTime)
  | CallZhiReadData =>
      forget (on_zhi (fun s => (Boxcars.readData np (fst s), s)))
  | CallZhiClose => on_zhi Boxcars.close
  end.

Fixpoint run (env : environment) (np : numlib) (ops : list op)
    (s : ZhiCounterTimerController * trace)
  : ZhiCounterTimerController * trace :=
  match ops with
  | [] => s
  | o :: rest => run env np rest (snd (call_op env np o s))
  end.

End Controller.

(** ** Instances used to evaluate the model *)

(** A left-to-right instance of the library reductions, for stamps
    below 2^63. *)
Definition float_of_Z (z : Z) : float := of_uint63 (Uint63.of_Z z).

Definition fsum (l : list float) : float :=
  fold_left PrimFloat.add l 0%float.

Definition mean_l2r (l : list float) : float :=
  (fsum l / float_of_Z (Z.of_nat (List.length l)))%float.

Definition sem_l2r (l : list float) : float :=
  let n := float_of_Z (Z.of_nat (List.length l)) in
  let m := mean_l2r l in
  let ss := fsum (map (fun x => ((x - m) * (x - m))%float) l) in
  (PrimFloat.sqrt (ss / (n - 1)) / PrimFloat.sqrt n)%float.

Definition l2r : numlib :=
  {| np_mean := mean_l2r;
     np_mean_u64 := fun l => mean_l2r (map float_of_Z l);
     sem := sem_l2r |}.

(** One boxcar node of a poll result. *)
Definition boxcar_node (v : list float) (ts : list Z) : pyobj :=
  PyDict [("sample", PyDict [("value", F64Array v); ("timestamp", U64Array ts)])].

Definition poll_result (dev : string) (v1 : list float) (ts1 : list Z)
    (v2 : list float) (ts2 : list Z) : pyobj :=
  PyDict [(dev, PyDict [("boxcars",
     PyDict [("0", boxcar_node v1 ts1); ("1", boxcar_node v2 ts2)])])].

(** A UHF whose option string is [opts], reached at API level [api], that
    answers every poll with [reply]. *)
Definition bench (opts : string) (api : Z) (reply : pyobj) : environment :=
  {| default_settings_path := "/home/lab/Zurich Instruments/LabOne/WebServer/setting";
     getByte_reply := fun p =>
       if String.eqb p "/dev2192/features/options" then opts else "UHFLI";
     getDouble_reply := fun _ => 1800000000%float;
     connection_api_level := api;
     time_reply := fun k => float_of_Z (Z.of_nat k);
     poll_reply := fun _ => reply |}.

Definition reply_a : pyobj :=
  poll_result "dev2192"
    [1%float; nan; 3%float; 5%float] [100; 200; 300; 400]
    [2%float; 4%float; nan; 8%float] [150; 250; 350; 450].

(** The calls that subscribe, in order. *)
Fixpoint subscriptions (tr : trace) : list string :=
  match tr with
  | [] => []
  | Subscribe p :: rest => p :: subscriptions rest
  | _ :: rest => subscriptions rest
  end.

Fixpoint warnings (tr : trace) : list string :=
  match tr with
  | [] => []
  | Warn m :: rest => m :: warnings rest
  | _ :: rest => warnings rest
  end.

Definition is_poll (c : call) : bool :=
  match c with
  | Poll _ _ _ _ => true
  | _ => false
  end.

Definition is_session_setup (c : call) : bool :=
  match c with
  | ZiDAQServer _ _ _ | ConnectDevice _ _ | Connect | Subscribe _ => true
  | _ => false
  end.

(** ** Vocabulary of the statements *)

(** The calls made up to the capability check. *)
Definition session_calls (env : environment) (ip : string) (port api_level : Z)
    (dev ifc settings : string) : trace :=
  [ZiDAQServer ip port api_level; ConnectDevice dev ifc; Connect;
   GetDefaultSettingsPath;
   LoadSettings dev (path_join (default_settings_path env) settings);
   GetByte ("/" ++ dev ++ "/features/devtype")%string;
   GetByte ("/" ++ dev ++ "/features/options")%string;
   GetDouble ("/" ++ dev ++ "/clockbase")%string].

Definition device_options (env : environment) (dev : string) : string :=
  getByte_reply env ("/" ++ dev ++ "/features/options")%string.

(** A time-stamped sample is kept when its stamp lies in [[lo, hi]] and
    its value is a number. *)
Definition in_window (lo hi : Z) (s : Z * float) : bool :=
  (lo <=? fst s) && (fst s <=? hi).

Definition kept (lo hi : Z) (s : Z * float) : bool :=
  in_window lo hi s && negb (is_nan (snd s)).

(** The tuple [readData] builds from the selected stamps of channel 1
    and the selected values of both channels. *)
Definition reduction (np : numlib) (clk duration : float) (ts1 : list Z)
    (v1 v2 : list float) : list scalar :=
  let mean1 := np_mean np v1 in
  let mean2 := np_mean np v2 in
  [Float mean1; Float mean2; Float (sem np v1); Float (sem np v2);
   Int (Z.of_nat (List.length v1));
   Float (1 / (np_mean_u64 np (np_diff ts1) / clk))%float;
   Float duration;
   Float (mean1 / mean2)%float;
   Float (abs (mean1 - mean2)%float)].

(** A [boxcars] object as [startAcq] leaves it on the bench. *)
Definition polled : Boxcars.boxcars :=
  {| Boxcars.daq := Some (Boxcars.Session "127.0.0.1" 8004 6);
     Boxcars.device := "dev2192"; Boxcars.iface := "1GbE";
     Boxcars.timeOut := 30;
     Boxcars.acqStartTime := Some 14%float;
     Boxcars.acqEndTime := Some 17%float;
     Boxcars.isAcquiring := false;
     Boxcars.devtype := "UHFLI"; Boxcars.options := "BOX";
     Boxcars.clock := 1800000000%float;
     Boxcars.data := Some reply_a |}.

(** Position in the trace of the latest [poll], if any. *)
Fixpoint last_poll_from (k : nat) (tr : trace) (acc : option nat)
  : option nat :=
  match tr with
  | [] => acc
  | c :: rest => last_poll_from (S k) rest (if is_poll c then Some k else acc)
  end.

Definition last_poll (tr : trace) : option nat := last_poll_from 0 tr None.

(** No call of [rest] opens a session, connects or subscribes. *)
Definition no_setup (rest : trace) : Prop :=
  forallb (fun c => negb (is_session_setup c)) rest = true.

Definition no_poll (tr : trace) : Prop :=
  forallb (fun c => negb (is_poll c)) tr = true.

(** [data] is absent, the empty list, or the reply to the latest poll. *)
Definition data_from_last_poll (env : environment) (z : Boxcars.boxcars)
    (tr : trace) : Prop :=
  Boxcars.data z = None \/
  Boxcars.data z = Some (PyList []) \/
  exists k len, last_poll tr = Some k /\
                nth_error tr k = Some (Poll len 500 4 false) /\
                Boxcars.data z = Some (poll_reply env k).

(** The trace extends that of the constructor without further session
    set-up, and [data] comes from the latest poll. *)
Definition acquiring_inv (env : environment) (tr0 : trace)
    (z : Boxcars.boxcars) (tr : trace) : Prop :=
  (exists rest, tr = tr0 ++ rest /\ no_setup rest) /\
  data_from_last_poll env z tr.

(** The calls of a controller constructor that returns. *)
Definition constructor_calls (env : environment) (IP : string) (port : Z)
    (dev ifc settings : string) : trace :=
  [Print "ZI Boxcar Initialization ...";
   ZiDAQServer IP port 6; ConnectDevice dev ifc; Connect;
   GetDefaultSettingsPath;
   LoadSettings dev (path_join (default_settings_path env) settings);
   GetByte ("/" ++ dev ++ "/features/devtype")%string;
   GetByte ("/" ++ dev ++ "/features/options")%string;
   GetDouble ("/" ++ dev ++ "/clockbase")%string;
   GetConnectionAPILevel; Sync;
   Subscribe (Boxcars.sample_path dev 0);
   Subscribe (Boxcars.sample_path dev 1);
   Print ("SUCCESS for device " ++ dev ++ " connected to dataserver " ++
          IP ++ ":" ++ fmt_d port ++ " with settings " ++ settings)%string].

(** The controller built on the bench, and the trace of its constructor. *)
Definition bench_controller : Controller.ZhiCounterTimerController :=
  {| Controller.IP := "127.0.0.1"; Controller.port := 8004;
     Controller.device := "dev2192"; Controller.iface := "1GbE";
     Controller.settings := "PumpUnpumpBoxCar";
     Controller.repRate := 1500; Controller.timeOut := 30;
     Controller.zhi :=
       {| Boxcars.daq := Some (Boxcars.Session "127.0.0.1" 8004 6);
          Boxcars.device := "dev2192"; Boxcars.iface := "1GbE";
          Boxcars.timeOut := 30;
          Boxcars.acqStartTime := None; Boxcars.acqEndTime := None;
          Boxcars.isAcquiring := false;
          Boxcars.devtype := "UHFLI"; Boxcars.options := "BOX";
          Boxcars.clock := 1800000000%float; Boxcars.data := None |};
     Controller.data := []; Controller.isAquiring := false |}.

Definition bench_trace : trace :=
  constructor_calls (bench "BOX" 6 reply_a) "127.0.0.1" 8004 "dev2192"
    "1GbE" "PumpUnpumpBoxCar".

Definition is_ReadOne_0 (o : Controller.op) : bool :=
  match o with
  | Controller.CallReadOne axis => axis =? 0
  | _ => false
  end.

(** The line the controller prints once [boxcars] is constructed. *)
Definition success_line (IP : string) (port : Z) (dev settings : string)
  : string :=
  ("SUCCESS for device " ++ dev ++ " connected to dataserver " ++
   IP ++ ":" ++ fmt_d port ++ " with settings " ++ settings)%string.

(** Client calls that reach [startAcq] or [pollData]. *)
Definition starts_acquisition (o : Controller.op) : bool :=
  match o with
  | Controller.CallStartOne axis _ => axis =? 0
  | Controller.CallZhiStartAcq _ => true
  | Controller.CallZhiPollData _ => true
  | _ => false
  end.

(** Client calls made on [zhi] directly rather than on the controller. *)
Definition is_zhi_call (o : Controller.op) : bool :=
  match o with
  | Controller.CallZhiStartAcq _ | Controller.CallZhiPollData _
  | Controller.CallZhiReadData | Controller.CallZhiClose => true
  | _ => false
  end.

(** The calls one acquisition makes. *)
Definition acquisition (intTime : float) : trace :=
  [Time; Flush; Poll intTime 500 4 false; Time].

(** The calls a controller method makes on a live [boxcars] object. *)
Definition calls_of (o : Controller.op) : trace :=
  match o with
  | Controller.CallStartOne axis value =>
      if axis =? 0 then acquisition value else []
  | _ => []
  end.

Definition is_Float (x : scalar) : bool :=
  match x with
  | Float _ => true
  | Int _ => false
  end.

(** What the constructors fix: the attributes of [boxcars] taken from the
    arguments and from the device, and the controller's properties
    together with its own [isAquiring]. *)
Definition boxcars_configuration (b : Boxcars.boxcars)
  : string * string * Z * string * string * float :=
  (Boxcars.device b, Boxcars.iface b, Boxcars.timeOut b,
   Boxcars.devtype b, Boxcars.options b, Boxcars.clock b).

Definition configuration (c : Controller.ZhiCounterTimerController)
  : string * Z * string * string * string * Z * Z * bool
    * (string * string * Z * string * string * float) :=
  (Controller.IP c, Controller.port c, Controller.device c,
   Controller.iface c, Controller.settings c, Controller.repRate c,
   Controller.timeOut c, Controller.isAquiring c,
   boxcars_configuration (Controller.zhi c)).

(** * Properties *)

(** ** Strings and traces *)

Lemma prefix_app (p s : string) :
  String.prefix p s = true <-> exists post, s = (p ++ post)%string.
Proof.
  revert s; induction p as [|c p IH]; intros s; simpl.
  - split; [intros _; exists s; reflexivity | intros _; destruct s; reflexivity].
  - destruct s as [|d s].
    + split; [discriminate | intros [post H]; discriminate].
    + simpl. destruct (ascii_dec c d) as [->|Hne].
      * rewrite IH. split; intros [post H]; exists post.
        -- now rewrite H.
        -- now injection H.
      * split; [discriminate | intros [post H]; injection H; congruence].
Qed.

Lemma re_search_cons (pat : string) (c : ascii) (s : string) :
  re_search pat (String c s) = String.prefix pat (String c s) || re_search pat s.
Proof. reflexivity. Qed.

(** [re_search pat s] holds exactly when [pat] occurs in [s]. *)
Lemma re_search_substring (pat s : string) :
  re_search pat s = true <->
  exists pre post, s = (pre ++ pat ++ post)%string.
Proof.
  induction s as [|c s IH].
  - change (re_search pat "") with (String.prefix pat "" || false).
    rewrite orb_false_r. split.
    + intros H. apply prefix_app in H. destruct H as [post H].
      exists "", post. exact H.
    + intros [pre [post H]]. apply prefix_app. destruct pre; simpl in H.
      * exists post; exact H.
      * discriminate.
  - rewrite re_search_cons, orb_true_iff. split.
    + intros [H | H].
      * apply prefix_app in H. destruct H as [post H].
        exists "", post. exact H.
      * apply IH in H. destruct H as [pre [post H]].
        exists (String c pre), post. simpl. now rewrite H.
    + intros [pre [post H]]. destruct pre as [|d pre]; simpl in H.
      * left. apply prefix_app. exists post. exact H.
      * right. apply IH. exists pre, post. now injection H.
Qed.

Lemma subscriptions_app (a b : trace) :
  subscriptions (a ++ b) = subscriptions a ++ subscriptions b.
Proof.
  induction a as [|c a IH]; simpl; [reflexivity|].
  destruct c; simpl; rewrite IH; reflexivity.
Qed.

Lemma warnings_app (a b : trace) :
  warnings (a ++ b) = warnings a ++ warnings b.
Proof.
  induction a as [|c a IH]; simpl; [reflexivity|].
  destruct c; simpl; rewrite IH; reflexivity.
Qed.

Lemma sample_path_0 (dev : string) :
  Boxcars.sample_path dev 0 = ("/" ++ dev ++ "/boxcars/0/sample")%string.
Proof. reflexivity. Qed.

Lemma sample_path_1 (dev : string) :
  Boxcars.sample_path dev 1 = ("/" ++ dev ++ "/boxcars/1/sample")%string.
Proof. reflexivity. Qed.

(** ** The constructor of [boxcars] *)

(** The three ways through the constructor. *)
Lemma init_cases env ip port api_level dev ifc settings repRate tmo tr :
  Boxcars.init env ip port api_level dev ifc settings repRate tmo tr =
  if negb (re_search "BOX" (device_options env dev)) then
    (Raises (Exception
       "This example can only be ran on a UHF with the BOX option enabled."),
     tr ++ session_calls env ip port api_level dev ifc settings)
  else if negb (connection_api_level env =? 6) then
    (Raises TypeError,
     tr ++ session_calls env ip port api_level dev ifc settings
        ++ [GetConnectionAPILevel])
  else
    (Returns
       {| Boxcars.daq := Some (Boxcars.Session ip port api_level);
          Boxcars.device := dev; Boxcars.iface := ifc;
          Boxcars.timeOut := tmo;
          Boxcars.acqStartTime := None; Boxcars.acqEndTime := None;
          Boxcars.isAcquiring := false;
          Boxcars.devtype :=
            getByte_reply env ("/" ++ dev ++ "/features/devtype")%string;
          Boxcars.options := device_options env dev;
          Boxcars.clock :=
            getDouble_reply env ("/" ++ dev ++ "/clockbase")%string;
          Boxcars.data := None |},
     tr ++ session_calls env ip port api_level dev ifc settings
        ++ [GetConnectionAPILevel; Sync;
            Subscribe (Boxcars.sample_path dev 0);
            Subscribe (Boxcars.sample_path dev 1)]).
Proof.
  unfold Boxcars.init, device_options, session_calls, bind, emit, ret, raise.
  destruct (negb (re_search "BOX" _)).
  - repeat rewrite <- app_assoc. reflexivity.
  - destruct (negb (connection_api_level env =? 6)).
    + repeat rewrite <- app_assoc. reflexivity.
    + repeat rewrite <- app_assoc. reflexivity.
Qed.

(** The constructor raises exactly when the BOX option is missing or the
    connection is not at API level 6. *)
Lemma init_raises_iff env ip port api_level dev ifc settings repRate tmo tr :
  (exists e tr',
     Boxcars.init env ip port api_level dev ifc settings repRate tmo tr
     = (Raises e, tr')) <->
  re_search "BOX" (device_options env dev) = false \/
  connection_api_level env <> 6.
Proof.
  rewrite init_cases.
  destruct (re_search "BOX" (device_options env dev)); simpl.
  - destruct (Z.eqb_spec (connection_api_level env) 6) as [E|E]; simpl.
    + split.
      * intros [e [tr' H]]. discriminate.
      * intros [H|H]; [discriminate | contradiction].
    + split; [intros _; now right | intros _; eauto].
  - split; [intros _; now left | intros _; eauto].
Qed.

(** C3. Constructor, API-level mismatch.  On a UHF with the BOX option
    whose connection reports API level 1, the argument of
    [warnings.warn] is the product of two strings: evaluating it raises
    [TypeError], so the constructor raises, no warning is issued and no
    stream is subscribed. *)
Theorem init_api_mismatch_raises :
  let env := bench "BOX" 1 reply_a in
  re_search "BOX" (device_options env "dev2192") = true /\
  connection_api_level env <> 6 /\
  exists tr,
    Boxcars.init env "127.0.0.1" 8004 1 "dev2192" "1GbE"
      "PumpUnpumpBoxCar.xml" 1500 30 [] = (Raises TypeError, tr) /\
    warnings tr = [] /\ subscriptions tr = [].
Proof.
  cbv zeta. split; [reflexivity|]. split; [discriminate|].
  eexists. split; [vm_compute; reflexivity|]. split; reflexivity.
Qed.

(** C4. Constructor, capability check.  The option string ["MF BOX PID"]
    contains ['BOX'], and still the constructor raises when the
    connection is at API level 5: raising does not imply that the BOX
    option is missing. *)
Theorem init_raises_with_BOX_present :
  let env := bench "MF BOX PID" 5 reply_a in
  (exists pre post,
     device_options env "dev2192" = (pre ++ "BOX" ++ post)%string) /\
  exists e tr,
    Boxcars.init env "127.0.0.1" 8004 5 "dev2192" "1GbE"
      "PumpUnpumpBoxCar.xml" 1500 30 [] = (Raises e, tr).
Proof.
  cbv zeta. split.
  - exists "MF ", " PID". reflexivity.
  - eexists. eexists. vm_compute. reflexivity.
Qed.

(** C6. A constructor that returns has subscribed, in this order, to the
    sample path of boxcar 0 and to the sample path of boxcar 1 of the
    configured device, and to nothing else. *)
Theorem init_subscribes_two_streams
    env ip port api_level dev ifc settings repRate tmo tr b tr' :
  Boxcars.init env ip port api_level dev ifc settings repRate tmo tr
    = (Returns b, tr') ->
  Boxcars.device b = dev /\
  subscriptions tr' =
    subscriptions tr ++ [("/" ++ dev ++ "/boxcars/0/sample")%string;
                         ("/" ++ dev ++ "/boxcars/1/sample")%string].
Proof.
  rewrite init_cases.
  destruct (negb (re_search "BOX" (device_options env dev)));
    [discriminate|].
  destruct (negb (connection_api_level env =? 6)); [discriminate|].
  intros H. injection H as <- <-. split; [reflexivity|].
  rewrite subscriptions_app. reflexivity.
Qed.

Lemma init_subscribes_two_streams_witness :
  exists b tr',
    Boxcars.init (bench "BOX" 6 reply_a) "127.0.0.1" 8004 6 "dev2192" "1GbE"
      "PumpUnpumpBoxCar.xml" 1500 30 [] = (Returns b, tr') /\
    Boxcars.device b = "dev2192" /\
    subscriptions tr' =
      ["/dev2192/boxcars/0/sample"; "/dev2192/boxcars/1/sample"].
Proof.
  eexists. eexists. split; [vm_compute; reflexivity|].
  apply (init_subscribes_two_streams (bench "BOX" 6 reply_a) "127.0.0.1"
           8004 6 "dev2192" "1GbE" "PumpUnpumpBoxCar.xml" 1500 30 []).
  vm_compute. reflexivity.
Defined.

(** ** Polling *)

Lemma pollData_run env intTime b tr :
  Boxcars.pollData env intTime (b, tr) =
  match Boxcars.daq b with
  | Some _ =>
      (Returns tt,
       (Boxcars.set_acqEndTime
          (Some (time_reply env (S (S (List.length tr)))))
          (Boxcars.set_isAcquiring false
             (Boxcars.set_data
                (Some (poll_reply env (S (List.length tr)))) b)),
        tr ++ [Flush; Poll intTime 500 4 false; Time]))
  | None => (Raises (AttributeError "daq"), (b, tr))
  end.
Proof.
  unfold Boxcars.pollData, Boxcars.daq_call, Boxcars.world, Boxcars.assign,
    time, bind, emit, ret.
  simpl. destruct (Boxcars.daq b) eqn:E; [|reflexivity].
  simpl. rewrite E. simpl.
  repeat rewrite length_app. simpl.
  repeat rewrite <- app_assoc. simpl.
  repeat rewrite Nat.add_1_r. reflexivity.
Qed.

Lemma startAcq_run env intTime b tr :
  Boxcars.startAcq env intTime (b, tr) =
  Boxcars.pollData env intTime
    (Boxcars.set_data (Some (PyList []))
       (Boxcars.set_acqStartTime (Some (time_reply env (List.length tr)))
          (Boxcars.set_isAcquiring true b)),
     tr ++ [Time]).
Proof. reflexivity. Qed.

(** C5. Whatever the integration time and whatever the object's
    [timeOut], [pollData] makes exactly one [poll] call, with timeout 500
    (and flags 4, nested dictionary), between a [flush] and a clock
    reading; it has the reply stored in [data] when it returns.  The same
    holds for [startAcq], which reads the clock first.  Once [daq] is
    deleted no call is made at all. *)
Theorem poll_timeout_fixed env intTime b tr :
  snd (snd (Boxcars.pollData env intTime (b, tr))) =
    tr ++ match Boxcars.daq b with
          | Some _ => [Flush; Poll intTime 500 4 false; Time]
          | None => []
          end /\
  snd (snd (Boxcars.startAcq env intTime (b, tr))) =
    tr ++ Time :: match Boxcars.daq b with
                  | Some _ => [Flush; Poll intTime 500 4 false; Time]
                  | None => []
                  end /\
  (Boxcars.daq b <> None ->
   fst (Boxcars.pollData env intTime (b, tr)) = Returns tt /\
   Boxcars.data (fst (snd (Boxcars.pollData env intTime (b, tr)))) =
     Some (poll_reply env (S (List.length tr)))).
Proof.
  rewrite startAcq_run, !pollData_run. simpl.
  destruct (Boxcars.daq b); simpl.
  - rewrite <- app_assoc. simpl. repeat split; reflexivity.
  - rewrite app_nil_r. split; [reflexivity|]. split; [reflexivity|].
    intros Hdaq. contradiction.
Qed.

Lemma poll_timeout_fixed_witness :
  let b := {| Boxcars.daq := Some (Boxcars.Session "127.0.0.1" 8004 6);
              Boxcars.device := "dev2192"; Boxcars.iface := "1GbE";
              Boxcars.timeOut := 30;
              Boxcars.acqStartTime := None; Boxcars.acqEndTime := None;
              Boxcars.isAcquiring := false;
              Boxcars.devtype := "UHFLI"; Boxcars.options := "BOX";
              Boxcars.clock := 1800000000%float; Boxcars.data := None |} in
  fst (Boxcars.pollData (bench "BOX" 6 reply_a) 2%float (b, [])) = Returns tt /\
  Boxcars.data (fst (snd (Boxcars.pollData (bench "BOX" 6 reply_a) 2%float
                            (b, [])))) = Some reply_a.
Proof.
  cbv zeta.
  apply (proj2 (proj2 (poll_timeout_fixed (bench "BOX" 6 reply_a) 2%float
                         _ []))).
  simpl. discriminate.
Defined.

(** ** Reported state *)

(** C7. [StateOne] reports Moving / "Counter is acquiring" exactly when
    [zhi.isAcquiring] is set and On / "Counter is stopped" exactly when
    it is clear, for every axis; the answer is a function of that flag
    alone, so no other attribute (the controller's own [isAquiring]
    among them) takes part in it. *)
Theorem StateOne_reads_isAcquiring (c : Controller.ZhiCounterTimerController)
    (axis : Z) :
  (Controller.StateOne c axis = (Controller.Moving, "Counter is acquiring")
   <-> Boxcars.isAcquiring (Controller.zhi c) = true) /\
  (Controller.StateOne c axis = (Controller.On, "Counter is stopped")
   <-> Boxcars.isAcquiring (Controller.zhi c) = false) /\
  (forall c' axis',
     Boxcars.isAcquiring (Controller.zhi c')
       = Boxcars.isAcquiring (Controller.zhi c) ->
     Controller.StateOne c' axis' = Controller.StateOne c axis).
Proof.
  unfold Controller.StateOne. repeat split.
  - destruct (Boxcars.isAcquiring (Controller.zhi c));
      [reflexivity | discriminate].
  - intros ->. reflexivity.
  - destruct (Boxcars.isAcquiring (Controller.zhi c));
      [discriminate | reflexivity].
  - intros ->. reflexivity.
  - intros c' axis' ->. reflexivity.
Qed.

(** ** The reduction: masks and the common time window *)

Lemma zip_and_length (a b : list bool) :
  List.length a = List.length b ->
  List.length (zip_and a b) = List.length a.
Proof.
  revert b; induction a as [|x a IH]; intros [|y b] H; simpl in *;
    try discriminate; [reflexivity|].
  f_equal. apply IH. now injection H.
Qed.

Lemma zip_and_true (a b : list bool) (i : nat) :
  nth_error (zip_and a b) i = Some true ->
  nth_error a i = Some true /\ nth_error b i = Some true.
Proof.
  revert b i; induction a as [|x a IH]; intros [|y b] [|i]; simpl;
    try discriminate.
  - intros H. injection H as H. apply andb_true_iff in H.
    destruct H as [-> ->]. split; reflexivity.
  - apply IH.
Qed.

Lemma zip_and_map2 {A B : Type} (f : A -> bool) (g : B -> bool)
    (a : list A) (b : list B) :
  zip_and (map f a) (map g b) =
  map (fun p => f (fst p) && g (snd p)) (combine a b).
Proof.
  revert b; induction a as [|x a IH]; intros [|y b]; simpl;
    try reflexivity.
  now rewrite IH.
Qed.

Lemma combine_same {A : Type} (a : list A) :
  combine a a = map (fun x => (x, x)) a.
Proof. induction a as [|x a IH]; simpl; [reflexivity | now rewrite IH]. Qed.

(** Where [&] yields [True], both operands of equal length do. *)
Lemma np_and_true_l (a c sel : list bool) (i : nat) :
  np_and a c = Returns sel ->
  List.length a = List.length sel ->
  nth_error sel i = Some true -> nth_error a i = Some true.
Proof.
  unfold np_and. intros H Hlen Hi.
  destruct (Nat.eqb_spec (List.length a) (List.length c)) as [E|E].
  - injection H as <-. now apply zip_and_true in Hi.
  - destruct (Nat.eqb_spec (List.length a) 1) as [E1|E1].
    + injection H as <-. rewrite length_map in Hlen. contradiction.
    + destruct (Nat.eqb_spec (List.length c) 1) as [E2|E2];
        [|discriminate].
      injection H as <-. rewrite nth_error_map in Hi.
      destruct (nth_error a i) as [x|]; simpl in Hi; [|discriminate].
      injection Hi as Hi. apply andb_true_iff in Hi. now destruct Hi as [-> _].
Qed.

Lemma np_and_true_r (a c sel : list bool) (i : nat) :
  np_and a c = Returns sel ->
  List.length c = List.length sel ->
  nth_error sel i = Some true -> nth_error c i = Some true.
Proof.
  unfold np_and. intros H Hlen Hi.
  destruct (Nat.eqb_spec (List.length a) (List.length c)) as [E|E].
  - injection H as <-. now apply zip_and_true in Hi.
  - destruct (Nat.eqb_spec (List.length a) 1) as [E1|E1].
    + injection H as <-. rewrite nth_error_map in Hi.
      destruct (nth_error c i) as [x|]; simpl in Hi; [|discriminate].
      injection Hi as Hi. apply andb_true_iff in Hi. now destruct Hi as [_ ->].
    + destruct (Nat.eqb_spec (List.length c) 1) as [E2|E2];
        [|discriminate].
      injection H as <-. rewrite length_map in Hlen. congruence.
Qed.

(** A value selected by the mask is not a NaN. *)
Lemma select_mask_not_nan ts v lo hi sel i :
  Boxcars.select_mask ts v lo hi = Returns sel ->
  List.length v = List.length sel ->
  nth_error sel i = Some true ->
  exists x, nth_error v i = Some x /\ is_nan x = false.
Proof.
  unfold Boxcars.select_mask. intros H Hlen Hi.
  destruct (np_and _ _) as [m|] eqn:Em; simpl in H; [|discriminate].
  assert (Hc : nth_error (map (fun x => negb (is_nan x)) v) i = Some true).
  { eapply np_and_true_r; eauto. now rewrite length_map. }
  rewrite nth_error_map in Hc.
  destruct (nth_error v i) as [x|]; simpl in Hc; [|discriminate].
  exists x. split; [reflexivity|]. injection Hc as Hc.
  now apply negb_true_iff in Hc.
Qed.

(** A time stamp selected by the mask lies in the window. *)
Lemma select_mask_in_window ts v lo hi sel i :
  Boxcars.select_mask ts v lo hi = Returns sel ->
  List.length ts = List.length sel ->
  nth_error sel i = Some true ->
  exists t, nth_error ts i = Some t /\ lo <= t <= hi.
Proof.
  unfold Boxcars.select_mask. intros H Hlen Hi.
  destruct (np_and _ _) as [m|] eqn:Em; simpl in H; [|discriminate].
  unfold np_and in Em. rewrite !length_map, Nat.eqb_refl in Em.
  injection Em as <-.
  assert (Hm : List.length (zip_and (map (fun t => lo <=? t) ts)
                              (map (fun t => t <=? hi) ts)) = List.length ts).
  { rewrite zip_and_length; rewrite !length_map; reflexivity. }
  assert (Hc : nth_error (zip_and (map (fun t => lo <=? t) ts)
                            (map (fun t => t <=? hi) ts)) i = Some true).
  { eapply np_and_true_l; eauto. congruence. }
  apply zip_and_true in Hc. destruct Hc as [H1 H2].
  rewrite nth_error_map in H1, H2.
  destruct (nth_error ts i) as [t|]; simpl in *; [|discriminate].
  exists t. split; [reflexivity|].
  injection H1 as H1. injection H2 as H2. lia.
Qed.

Lemma compress_Forall {A : Type} (P : A -> Prop) (a : list A)
    (mask : list bool) :
  (forall i, nth_error mask i = Some true ->
             exists x, nth_error a i = Some x /\ P x) ->
  Forall P (compress a mask).
Proof.
  revert mask; induction a as [|x a IH]; intros [|m mask] H; simpl;
    try constructor.
  destruct m.
  - constructor.
    + destruct (H 0%nat eq_refl) as [y [Hy Py]]. simpl in Hy.
      now injection Hy as ->.
    + apply IH. intros i Hi. exact (H (S i) Hi).
  - apply IH. intros i Hi. exact (H (S i) Hi).
Qed.

(** On a channel with as many stamps as values the mask is the
    pointwise test [kept], and indexing by it is filtering. *)
Lemma select_mask_kept ts v lo hi :
  List.length ts = List.length v ->
  Boxcars.select_mask ts v lo hi = Returns (map (kept lo hi) (combine ts v)).
Proof.
  intros Hlen. unfold Boxcars.select_mask, np_and.
  rewrite !length_map, Nat.eqb_refl. simpl.
  rewrite zip_and_length by (rewrite !length_map; reflexivity).
  rewrite !length_map, Hlen, Nat.eqb_refl.
  f_equal. rewrite (zip_and_map2 (fun t => lo <=? t) (fun t => t <=? hi)).
  rewrite combine_same, map_map. simpl.
  rewrite (zip_and_map2 (fun t => (lo <=? t) && (t <=? hi))
             (fun x => negb (is_nan x))).
  reflexivity.
Qed.

Lemma compress_fst {A B : Type} (p : A * B -> bool) (a : list A) (b : list B) :
  List.length a = List.length b ->
  compress a (map p (combine a b)) = map fst (filter p (combine a b)).
Proof.
  revert b; induction a as [|x a IH]; intros [|y b] H; simpl in *;
    try discriminate; [reflexivity|].
  destruct (p (x, y)); simpl; rewrite IH by lia; reflexivity.
Qed.

Lemma compress_snd {A B : Type} (p : A * B -> bool) (a : list A) (b : list B) :
  List.length a = List.length b ->
  compress b (map p (combine a b)) = map snd (filter p (combine a b)).
Proof.
  revert b; induction a as [|x a IH]; intros [|y b] H; simpl in *;
    try discriminate; [reflexivity|].
  destruct (p (x, y)); simpl; rewrite IH by lia; reflexivity.
Qed.

Lemma np_getmask_fst {A B : Type} (p : A * B -> bool) (a : list A) (b : list B) :
  List.length a = List.length b ->
  np_getmask a (map p (combine a b)) = Returns (map fst (filter p (combine a b))).
Proof.
  intros H. unfold np_getmask.
  rewrite length_map, length_combine, <- H, Nat.min_id, Nat.eqb_refl.
  now rewrite compress_fst.
Qed.

Lemma np_getmask_snd {A B : Type} (p : A * B -> bool) (a : list A) (b : list B) :
  List.length a = List.length b ->
  np_getmask b (map p (combine a b)) = Returns (map snd (filter p (combine a b))).
Proof.
  intros H. unfold np_getmask.
  rewrite length_map, length_combine, <- H, Nat.min_id, Nat.eqb_refl.
  now rewrite compress_snd.
Qed.

Lemma py_index_first (t : list Z) :
  t <> [] -> py_index t 0 = Returns (hd 0 t).
Proof.
  destruct t as [|x t]; [congruence|]. intros _. unfold py_index.
  assert (H : (0 <=? 0) && (0 <? Z.of_nat (List.length (x :: t))) = true).
  { simpl List.length. apply andb_true_iff. split; [reflexivity|].
    apply Z.ltb_lt. lia. }
  rewrite H. reflexivity.
Qed.

Lemma nth_error_last (t : list Z) :
  t <> [] -> nth_error t (List.length t - 1) = Some (last t 0).
Proof.
  induction t as [|x t IH]; [congruence|]. intros _.
  destruct t as [|y t]; [reflexivity|].
  specialize (IH ltac:(discriminate)).
  simpl List.length in *.
  replace (S (S (List.length t)) - 1)%nat with (S (List.length t)) by lia.
  replace (S (List.length t) - 1)%nat with (List.length t) in IH by lia.
  exact IH.
Qed.

Lemma py_index_last (t : list Z) :
  t <> [] -> py_index t (-1) = Returns (last t 0).
Proof.
  intros Hne. unfold py_index.
  assert (Hlen : (0 < List.length t)%nat).
  { destruct t; [congruence | simpl; lia]. }
  replace ((0 <=? -1) && (-1 <? Z.of_nat (List.length t))) with false
    by reflexivity.
  assert (H : (- Z.of_nat (List.length t) <=? -1) && (-1 <? 0) = true).
  { apply andb_true_iff. split; [apply Z.leb_le; lia | reflexivity]. }
  rewrite H.
  replace (Z.to_nat (Z.of_nat (List.length t) + -1))
    with (List.length t - 1)%nat by lia.
  now rewrite nth_error_last.
Qed.

Ltac bind_inv H :=
  match type of H with
  | obind ?m _ = Returns _ =>
      let E := fresh "E" in
      destruct m eqn:E; simpl in H; [|discriminate H]
  end.

Lemma np_getmask_inv {A : Type} (a : list A) (m : list bool) (out : list A) :
  np_getmask a m = Returns out ->
  List.length a = List.length m /\ out = compress a m.
Proof.
  unfold np_getmask.
  destruct (Nat.eqb_spec (List.length a) (List.length m)); [|discriminate].
  intros H. injection H as <-. split; [assumption | reflexivity].
Qed.

Ltac getmask_inv H :=
  match type of H with
  | obind (np_getmask ?a ?m) _ = Returns _ =>
      let E := fresh "E" in
      let L := fresh "L" in
      destruct (np_getmask a m) eqn:E; simpl in H; [|discriminate H];
      apply np_getmask_inv in E; destruct E as [L ->]
  end.

(** What a returning [readData] has gone through. *)
Lemma readData_inv np b out :
  Boxcars.readData np b = Returns out ->
  exists v1 t1 v2 t2 f1 f2 l1 l2 sel1 sel2 dur,
    Boxcars.sample_value b "0" = Returns v1 /\
    Boxcars.sample_timestamp b "0" = Returns t1 /\
    Boxcars.sample_value b "1" = Returns v2 /\
    Boxcars.sample_timestamp b "1" = Returns t2 /\
    py_index t1 0 = Returns f1 /\ py_index t2 0 = Returns f2 /\
    py_index t1 (-1) = Returns l1 /\ py_index t2 (-1) = Returns l2 /\
    Boxcars.select_mask t1 v1 (Z.max f1 f2) (Z.min l1 l2) = Returns sel1 /\
    Boxcars.select_mask t2 v2 (Z.max f1 f2) (Z.min l1 l2) = Returns sel2 /\
    List.length t1 = List.length sel1 /\
    List.length v1 = List.length sel1 /\
    List.length v2 = List.length sel2 /\
    Boxcars.py_sub (Boxcars.acqEndTime b) (Boxcars.acqStartTime b)
      = Returns dur /\
    out = reduction np (Boxcars.clock b) dur (compress t1 sel1)
            (compress v1 sel1) (compress v2 sel2).
Proof.
  unfold Boxcars.readData. intros H.
  do 10 bind_inv H.
  getmask_inv H. bind_inv H. do 2 getmask_inv H.
  injection H as <-.
  do 11 eexists. repeat (split; [eassumption || reflexivity|]).
  reflexivity.
Qed.

(** [polled] is the object after [startAcq(1.0)] on the bench. *)
Lemma polled_after_startAcq :
  Boxcars.startAcq (bench "BOX" 6 reply_a) 1%float
    (Controller.zhi bench_controller, bench_trace)
  = (Returns tt,
     (polled, bench_trace ++ [Time; Flush; Poll 1 500 4 false; Time])).
Proof. vm_compute. reflexivity. Qed.

(** C1. After a poll in which each channel delivered as many time stamps
    as values, and at least one, [readData] returns; with [lo] the later
    of the two first stamps and [hi] the earlier of the two last stamps,
    the two means, the two standard errors, the count, the quotient
    [mean1 / mean2], the distance [|mean1 - mean2|] and the sampling
    frequency (from the stamps of channel 1) are those of the samples
    kept by [kept lo hi], all of which have their stamp in [[lo, hi]]. *)
Theorem readData_common_window np b v1 t1 v2 t2 start stop :
  Boxcars.sample_value b "0" = Returns v1 ->
  Boxcars.sample_timestamp b "0" = Returns t1 ->
  Boxcars.sample_value b "1" = Returns v2 ->
  Boxcars.sample_timestamp b "1" = Returns t2 ->
  List.length t1 = List.length v1 ->
  List.length t2 = List.length v2 ->
  t1 <> [] -> t2 <> [] ->
  Boxcars.acqStartTime b = Some start ->
  Boxcars.acqEndTime b = Some stop ->
  let lo := Z.max (hd 0 t1) (hd 0 t2) in
  let hi := Z.min (last t1 0) (last t2 0) in
  let w1 := filter (kept lo hi) (combine t1 v1) in
  let w2 := filter (kept lo hi) (combine t2 v2) in
  Boxcars.readData np b =
    Returns (reduction np (Boxcars.clock b) (stop - start)%float
               (map fst w1) (map snd w1) (map snd w2)) /\
  Forall (fun s => lo <= fst s <= hi) w1 /\
  Forall (fun s => lo <= fst s <= hi) w2.
Proof.
  intros H1 H2 H3 H4 L1 L2 N1 N2 Hs He lo hi w1 w2.
  assert (Hwin : forall s, kept lo hi s = true -> lo <= fst s <= hi).
  { intros s H. unfold kept, in_window in H.
    apply andb_true_iff in H. destruct H as [H _].
    apply andb_true_iff in H. destruct H as [Ha Hb]. lia. }
  split; [|split].
  - unfold Boxcars.readData. rewrite H1, H2, H3, H4. simpl obind.
    rewrite (py_index_first t1 N1), (py_index_first t2 N2). simpl obind.
    rewrite (py_index_last t1 N1), (py_index_last t2 N2). simpl obind.
    fold lo hi.
    rewrite (select_mask_kept t1 v1 lo hi L1),
            (select_mask_kept t2 v2 lo hi L2). simpl obind.
    rewrite (np_getmask_fst (kept lo hi) t1 v1 L1),
            (np_getmask_snd (kept lo hi) t1 v1 L1),
            (np_getmask_snd (kept lo hi) t2 v2 L2).
    rewrite Hs, He. simpl. fold w1 w2.
    unfold reduction. rewrite !length_map. reflexivity.
  - apply Forall_forall. intros s Hin. apply filter_In in Hin.
    apply Hwin, Hin.
  - apply Forall_forall. intros s Hin. apply filter_In in Hin.
    apply Hwin, Hin.
Qed.

Lemma readData_common_window_witness :
  Boxcars.readData l2r polled =
    Returns (reduction l2r 1800000000%float 3%float
               [300; 400] [3%float; 5%float] [2%float; 4%float]) /\
  Forall (fun s => 150 <= fst s <= 400) [(300, 3%float); (400, 5%float)] /\
  Forall (fun s => 150 <= fst s <= 400) [(150, 2%float); (250, 4%float)].
Proof.
  apply (readData_common_window l2r polled
           [1%float; nan; 3%float; 5%float] [100; 200; 300; 400]
           [2%float; 4%float; nan; 8%float] [150; 250; 350; 450]
           14%float 17%float);
    try reflexivity; discriminate.
Defined.

Lemma py_index_first_inv (t : list Z) (f : Z) :
  py_index t 0 = Returns f -> t <> [] /\ f = hd 0 t.
Proof.
  destruct t as [|x t]; [discriminate|].
  rewrite py_index_first by discriminate.
  intros H. injection H as <-. split; [discriminate | reflexivity].
Qed.

Lemma py_index_last_inv (t : list Z) (l : Z) :
  py_index t (-1) = Returns l -> t <> [] /\ l = last t 0.
Proof.
  destruct t as [|x t]; [discriminate|].
  rewrite py_index_last by discriminate.
  intros H. injection H as <-. split; [discriminate | reflexivity].
Qed.

(** C2. Whenever [readData] returns, both channels have a time stamp and
    the masks it used are those of the common window, from the later of
    the two first stamps to the earlier of the two last stamps.  Each
    mask is false at every index whose value is a NaN; the means and
    the standard errors returned are taken over the values selected by
    these masks, none of which is a NaN, and on a channel with as many
    stamps as values every selected stamp lies in that window. *)
Theorem readData_excludes_nan np b out :
  Boxcars.readData np b = Returns out ->
  exists v1 t1 v2 t2 sel1 sel2,
    Boxcars.sample_value b "0" = Returns v1 /\
    Boxcars.sample_timestamp b "0" = Returns t1 /\
    Boxcars.sample_value b "1" = Returns v2 /\
    Boxcars.sample_timestamp b "1" = Returns t2 /\
    t1 <> [] /\ t2 <> [] /\
    let lo := Z.max (hd 0 t1) (hd 0 t2) in
    let hi := Z.min (last t1 0) (last t2 0) in
    Boxcars.select_mask t1 v1 lo hi = Returns sel1 /\
    Boxcars.select_mask t2 v2 lo hi = Returns sel2 /\
    (forall i x, nth_error v1 i = Some x -> is_nan x = true ->
                 nth_error sel1 i = Some false) /\
    (forall i x, nth_error v2 i = Some x -> is_nan x = true ->
                 nth_error sel2 i = Some false) /\
    Forall (fun x => is_nan x = false) (compress v1 sel1) /\
    Forall (fun x => is_nan x = false) (compress v2 sel2) /\
    Forall (fun t => lo <= t <= hi) (compress t1 sel1) /\
    (List.length t2 = List.length v2 ->
     Forall (fun t => lo <= t <= hi) (compress t2 sel2)) /\
    nth_error out 0 = Some (Float (np_mean np (compress v1 sel1))) /\
    nth_error out 1 = Some (Float (np_mean np (compress v2 sel2))) /\
    nth_error out 2 = Some (Float (sem np (compress v1 sel1))) /\
    nth_error out 3 = Some (Float (sem np (compress v2 sel2))).
Proof.
  intros H. apply readData_inv in H.
  destruct H as (v1 & t1 & v2 & t2 & f1 & f2 & l1 & l2 & sel1 & sel2 & dur
                 & H1 & H2 & H3 & H4 & F1 & F2 & E1 & E2 & M1 & M2 & Lt1
                 & Lv1 & Lv2 & _ & ->).
  apply py_index_first_inv in F1, F2. apply py_index_last_inv in E1, E2.
  destruct F1 as [N1 ->]. destruct F2 as [N2 ->].
  destruct E1 as [_ ->]. destruct E2 as [_ ->].
  assert (Hfalse : forall ts v lo hi sel,
             Boxcars.select_mask ts v lo hi = Returns sel ->
             List.length v = List.length sel ->
             forall i x, nth_error v i = Some x -> is_nan x = true ->
                         nth_error sel i = Some false).
  { intros ts v lo hi sel M L i x Hx Hnan.
    destruct (nth_error sel i) as [[|]|] eqn:Ei.
    - destruct (select_mask_not_nan _ _ _ _ _ _ M L Ei) as [y [Hy Hn]].
      congruence.
    - reflexivity.
    - apply nth_error_None in Ei.
      assert (i < List.length v)%nat
        by (apply nth_error_Some; congruence).
      lia. }
  exists v1, t1, v2, t2, sel1, sel2. cbv zeta.
  repeat (split; [assumption|]).
  split; [eapply Hfalse; eassumption|].
  split; [eapply Hfalse; eassumption|].
  split.
  { apply compress_Forall. intros i Hi.
    eapply select_mask_not_nan; eassumption. }
  split.
  { apply compress_Forall. intros i Hi.
    eapply select_mask_not_nan; eassumption. }
  split.
  { apply compress_Forall. intros i Hi.
    eapply select_mask_in_window; eassumption. }
  split.
  { intros L2. apply compress_Forall. intros i Hi.
    eapply select_mask_in_window; try eassumption. congruence. }
  repeat split.
Qed.

Lemma readData_excludes_nan_witness :
  exists v1 t1 v2 t2 sel1 sel2,
    Boxcars.sample_value polled "0" = Returns v1 /\
    Boxcars.sample_timestamp polled "0" = Returns t1 /\
    Boxcars.sample_value polled "1" = Returns v2 /\
    Boxcars.sample_timestamp polled "1" = Returns t2 /\
    t1 <> [] /\ t2 <> [] /\
    let lo := Z.max (hd 0 t1) (hd 0 t2) in
    let hi := Z.min (last t1 0) (last t2 0) in
    Boxcars.select_mask t1 v1 lo hi = Returns sel1 /\
    Boxcars.select_mask t2 v2 lo hi = Returns sel2 /\
    (forall i x, nth_error v1 i = Some x -> is_nan x = true ->
                 nth_error sel1 i = Some false) /\
    (forall i x, nth_error v2 i = Some x -> is_nan x = true ->
                 nth_error sel2 i = Some false) /\
    Forall (fun x => is_nan x = false) (compress v1 sel1) /\
    Forall (fun x => is_nan x = false) (compress v2 sel2) /\
    Forall (fun t => lo <= t <= hi) (compress t1 sel1) /\
    (List.length t2 = List.length v2 ->
     Forall (fun t => lo <= t <= hi) (compress t2 sel2)) /\
    nth_error
      [Float 4; Float 3; Float 1; Float 1; Int 2; Float 18000000; Float 3;
       Float (4 / 3); Float 1] 0
      = Some (Float (np_mean l2r (compress v1 sel1))) /\
    nth_error
      [Float 4; Float 3; Float 1; Float 1; Int 2; Float 18000000; Float 3;
       Float (4 / 3); Float 1] 1
      = Some (Float (np_mean l2r (compress v2 sel2))) /\
    nth_error
      [Float 4; Float 3; Float 1; Float 1; Int 2; Float 18000000; Float 3;
       Float (4 / 3); Float 1] 2
      = Some (Float (sem l2r (compress v1 sel1))) /\
    nth_error
      [Float 4; Float 3; Float 1; Float 1; Int 2; Float 18000000; Float 3;
       Float (4 / 3); Float 1] 3
      = Some (Float (sem l2r (compress v2 sel2))).
Proof.
  apply (readData_excludes_nan l2r polled). vm_compute. reflexivity.
Defined.

(** ** Order of the calls *)

Lemma last_poll_from_app k a b acc :
  last_poll_from k (a ++ b) acc =
  last_poll_from (k + List.length a) b (last_poll_from k a acc).
Proof.
  revert k acc; induction a as [|c a IH]; intros k acc; simpl.
  - now rewrite Nat.add_0_r.
  - rewrite IH. f_equal. lia.
Qed.

Lemma last_poll_app a b :
  last_poll (a ++ b) = last_poll_from (List.length a) b (last_poll a).
Proof. unfold last_poll. now rewrite last_poll_from_app. Qed.

Lemma no_setup_app a b : no_setup a -> no_setup b -> no_setup (a ++ b).
Proof.
  unfold no_setup. intros Ha Hb. rewrite forallb_app, Ha, Hb. reflexivity.
Qed.

Lemma extends_app tr0 tr ev :
  (exists rest, tr = tr0 ++ rest /\ no_setup rest) ->
  no_setup ev ->
  exists rest, tr ++ ev = tr0 ++ rest /\ no_setup rest.
Proof.
  intros [rest [-> Hr]] Hev. exists (rest ++ ev). split.
  - now rewrite app_assoc.
  - now apply no_setup_app.
Qed.

Lemma close_run b tr :
  Boxcars.close (b, tr) =
  match Boxcars.daq b with
  | Some _ => (Returns tt, (Boxcars.set_daq None b, tr ++ [Unsubscribe "*"]))
  | None => (Raises (AttributeError "daq"), (b, tr))
  end.
Proof.
  unfold Boxcars.close, Boxcars.daq_call, Boxcars.world, Boxcars.assign,
    bind, emit.
  simpl. destruct (Boxcars.daq b); reflexivity.
Qed.

Lemma nth_error_poll tr intTime rest :
  nth_error (tr ++ Flush :: Poll intTime 500 4 false :: rest)
    (S (List.length tr)) = Some (Poll intTime 500 4 false).
Proof.
  rewrite nth_error_app2 by lia.
  replace (S (List.length tr) - List.length tr)%nat with 1%nat by lia.
  reflexivity.
Qed.

Lemma acquiring_inv_pollData env tr0 intTime b tr :
  acquiring_inv env tr0 b tr ->
  acquiring_inv env tr0
    (fst (snd (Boxcars.pollData env intTime (b, tr))))
    (snd (snd (Boxcars.pollData env intTime (b, tr)))).
Proof.
  intros [Hext Hdata]. rewrite pollData_run.
  destruct (Boxcars.daq b); simpl; [|split; assumption].
  split.
  - apply extends_app; [assumption | reflexivity].
  - right. right. exists (S (List.length tr)), intTime. split; [|split].
    + rewrite last_poll_app. reflexivity.
    + apply nth_error_poll.
    + reflexivity.
Qed.

Lemma acquiring_inv_startAcq env tr0 intTime b tr :
  acquiring_inv env tr0 b tr ->
  acquiring_inv env tr0
    (fst (snd (Boxcars.startAcq env intTime (b, tr))))
    (snd (snd (Boxcars.startAcq env intTime (b, tr)))).
Proof.
  intros [Hext Hdata]. rewrite startAcq_run.
  apply acquiring_inv_pollData. split.
  - apply extends_app; [assumption | reflexivity].
  - right. left. reflexivity.
Qed.

Lemma data_from_last_poll_app env z z' tr ev :
  Boxcars.data z' = Boxcars.data z ->
  no_poll ev ->
  data_from_last_poll env z tr -> data_from_last_poll env z' (tr ++ ev).
Proof.
  intros Hd Hev [H | [H | [k [len [Hk [Hn H]]]]]].
  - left. congruence.
  - right. left. congruence.
  - right. right. exists k, len.
    assert (Hlt : (k < List.length tr)%nat)
      by (apply nth_error_Some; congruence).
    split; [|split].
    + rewrite last_poll_app, Hk. clear - Hev.
      generalize (List.length tr) as n. generalize (Some k) as acc.
      induction ev as [|c ev IH]; intros acc n; simpl; [reflexivity|].
      unfold no_poll in Hev. simpl in Hev.
      apply andb_true_iff in Hev. destruct Hev as [Hc Hev].
      apply negb_true_iff in Hc. rewrite Hc. now apply IH.
    + rewrite nth_error_app1 by assumption. exact Hn.
    + congruence.
Qed.

Lemma acquiring_inv_close env tr0 b tr :
  acquiring_inv env tr0 b tr ->
  acquiring_inv env tr0
    (fst (snd (Boxcars.close (b, tr)))) (snd (snd (Boxcars.close (b, tr)))).
Proof.
  intros [Hext Hdata]. rewrite close_run.
  destruct (Boxcars.daq b); simpl; [|split; assumption].
  split.
  - apply extends_app; [assumption | reflexivity].
  - eapply data_from_last_poll_app; [reflexivity | reflexivity | assumption].
Qed.

(** What a client call does to [zhi] and to the trace: nothing, or what
    one of the three mutating methods of [boxcars] does. *)
Lemma call_op_zhi env np o c tr :
  let s' := snd (Controller.call_op env np o (c, tr)) in
  (Controller.zhi (fst s'), snd s') = (Controller.zhi c, tr) \/
  (exists t, (Controller.zhi (fst s'), snd s')
             = snd (Boxcars.startAcq env t (Controller.zhi c, tr))) \/
  (exists t, (Controller.zhi (fst s'), snd s')
             = snd (Boxcars.pollData env t (Controller.zhi c, tr))) \/
  (o = Controller.CallZhiClose /\
   (Controller.zhi (fst s'), snd s')
     = snd (Boxcars.close (Controller.zhi c, tr))).
Proof.
  destruct o; cbv zeta;
    try (left; reflexivity).
  - (* ReadOne *)
    left. unfold Controller.call_op, Controller.forget, Controller.ReadOne,
      Controller.on_zhi, Controller.assign, Controller.self, bind, ret, lift.
    simpl.
    destruct (axis =? 0); simpl.
    + destruct (Boxcars.readData np (Controller.zhi c)); simpl.
      * destruct (py_index a axis); reflexivity.
      * reflexivity.
    + destruct (py_index (Controller.data c) axis); reflexivity.
  - (* StartOne *)
    unfold Controller.call_op, Controller.StartOne.
    destruct (axis =? 0); [|left; reflexivity].
    right. left. exists value. unfold Controller.on_zhi. simpl.
    destruct (Boxcars.startAcq env value (Controller.zhi c, tr))
      as [o [z tr']]. reflexivity.
  - right. left. exists intTime.
    unfold Controller.call_op, Controller.on_zhi. simpl.
    destruct (Boxcars.startAcq env intTime (Controller.zhi c, tr))
      as [o [z tr']]. reflexivity.
  - right. right. left. exists intTime.
    unfold Controller.call_op, Controller.on_zhi. simpl.
    destruct (Boxcars.pollData env intTime (Controller.zhi c, tr))
      as [o [z tr']]. reflexivity.
  - left. unfold Controller.call_op, Controller.forget, Controller.on_zhi,
      bind, ret. simpl.
    destruct (Boxcars.readData np (Controller.zhi c)); reflexivity.
  - right. right. right. split; [reflexivity|].
    unfold Controller.call_op, Controller.on_zhi. simpl.
    destruct (Boxcars.close (Controller.zhi c, tr)) as [o [z tr']].
    reflexivity.
Qed.

Lemma acquiring_inv_call_op env np tr0 o c tr :
  acquiring_inv env tr0 (Controller.zhi c) tr ->
  acquiring_inv env tr0
    (Controller.zhi (fst (snd (Controller.call_op env np o (c, tr)))))
    (snd (snd (Controller.call_op env np o (c, tr)))).
Proof.
  intros H.
  destruct (call_op_zhi env np o c tr) as [E | [[t E] | [[t E] | [_ E]]]];
    cbv zeta in E;
    pose proof (f_equal fst E) as E1; pose proof (f_equal snd E) as E2;
    cbn [fst snd] in E1, E2; rewrite E1, E2.
  - assumption.
  - now apply acquiring_inv_startAcq.
  - now apply acquiring_inv_pollData.
  - now apply acquiring_inv_close.
Qed.

Lemma acquiring_inv_run env np tr0 ops s :
  acquiring_inv env tr0 (Controller.zhi (fst s)) (snd s) ->
  acquiring_inv env tr0
    (Controller.zhi (fst (Controller.run env np ops s)))
    (snd (Controller.run env np ops s)).
Proof.
  revert s; induction ops as [|o ops IH]; intros [c tr] H; simpl;
    [assumption|].
  apply IH. now apply acquiring_inv_call_op.
Qed.

Lemma controller_init_returns env IP port dev ifc settings repRate tmo c tr0 :
  Controller.init env IP port dev ifc settings repRate tmo []
    = (Returns c, tr0) ->
  tr0 = constructor_calls env IP port dev ifc settings /\
  Boxcars.data (Controller.zhi c) = None /\
  Boxcars.isAcquiring (Controller.zhi c) = false /\
  Controller.data c = [].
Proof.
  unfold Controller.init, bind, emit, ret. simpl.
  rewrite init_cases.
  destruct (negb (re_search "BOX" (device_options env dev)));
    [discriminate|].
  destruct (negb (connection_api_level env =? 6)); [discriminate|].
  simpl. intros H. injection H as <- <-. repeat split.
Qed.

Lemma bench_controller_init :
  Controller.init (bench "BOX" 6 reply_a) "127.0.0.1" 8004 "dev2192" "1GbE"
    "PumpUnpumpBoxCar" 1500 30 [] = (Returns bench_controller, bench_trace).
Proof. vm_compute. reflexivity. Qed.

(** ** The acquisition flag *)







(** ** The cached readings *)

Lemma ReadOne_other_axis np axis c tr :
  axis <> 0 ->
  Controller.ReadOne np axis (c, tr)
    = (py_index (Controller.data c) axis, (c, tr)).
Proof.
  intros H. unfold Controller.ReadOne, Controller.self, bind, ret, lift.
  destruct (Z.eqb_spec axis 0); [contradiction|]. reflexivity.
Qed.

Lemma ReadOne_axis_0 np c tr :
  Controller.ReadOne np 0 (c, tr) =
  match Boxcars.readData np (Controller.zhi c) with
  | Returns r =>
      (py_index r 0,
       (Controller.set_data r (Controller.set_zhi (Controller.zhi c) c), tr))
  | Raises e => (Raises e, (Controller.set_zhi (Controller.zhi c) c, tr))
  end.
Proof.
  unfold Controller.ReadOne, Controller.on_zhi, Controller.assign,
    Controller.self, bind, ret, lift. simpl.
  destruct (Boxcars.readData np (Controller.zhi c)); reflexivity.
Qed.

Lemma set_zhi_same c : Controller.set_zhi (Controller.zhi c) c = c.
Proof. destruct c; reflexivity. Qed.

Lemma call_op_data env np o c tr :
  is_ReadOne_0 o = false ->
  Controller.data (fst (snd (Controller.call_op env np o (c, tr))))
    = Controller.data c.
Proof.
  intros Ho. destruct o; try reflexivity; simpl.
  - simpl in Ho. unfold Controller.forget, bind.
    destruct (Z.eqb_spec axis 0) as [|Hne]; [discriminate|].
    rewrite (ReadOne_other_axis np axis c tr Hne).
    destruct (py_index (Controller.data c) axis); reflexivity.
  - unfold Controller.StartOne. destruct (axis =? 0); [|reflexivity].
    unfold Controller.on_zhi. simpl.
    destruct (Boxcars.startAcq env value (Controller.zhi c, tr))
      as [o [z tr']]. reflexivity.
  - unfold Controller.on_zhi. simpl.
    destruct (Boxcars.startAcq env intTime (Controller.zhi c, tr))
      as [o [z tr']]. reflexivity.
  - unfold Controller.on_zhi. simpl.
    destruct (Boxcars.pollData env intTime (Controller.zhi c, tr))
      as [o [z tr']]. reflexivity.
  - unfold Controller.forget, Controller.on_zhi, bind, ret. simpl.
    destruct (Boxcars.readData np (Controller.zhi c)); reflexivity.
  - unfold Controller.on_zhi. simpl.
    destruct (Boxcars.close (Controller.zhi c, tr)) as [o [z tr']].
    reflexivity.
Qed.

Lemma run_data env np ops s :
  forallb (fun o => negb (is_ReadOne_0 o)) ops = true ->
  Controller.data (fst (Controller.run env np ops s))
    = Controller.data (fst s).
Proof.
  revert s; induction ops as [|o ops IH]; intros [c tr] H; simpl;
    [reflexivity|].
  simpl in H. apply andb_true_iff in H. destruct H as [Ho H].
  apply negb_true_iff in Ho.
  rewrite IH by assumption.
  destruct (Controller.call_op env np o (c, tr)) as [r [c' tr']] eqn:E.
  pose proof (call_op_data env np o c tr Ho) as Hd. rewrite E in Hd.
  exact Hd.
Qed.

Lemma py_index_nil {A : Type} (i : Z) : py_index (@nil A) i = Raises IndexError.
Proof.
  unfold py_index. simpl.
  destruct (0 <=? i) eqn:E1; destruct (i <? 0) eqn:E2; simpl;
    try reflexivity.
  apply Z.leb_le in E1. apply Z.ltb_lt in E2. lia.
Qed.

Lemma py_index_nth {A : Type} (l : list A) (i : Z) (x : A) :
  0 <= i -> nth_error l (Z.to_nat i) = Some x -> py_index l i = Returns x.
Proof.
  intros Hi Hx. unfold py_index.
  assert (Hlt : (Z.to_nat i < List.length l)%nat)
    by (apply nth_error_Some; congruence).
  assert (H : (0 <=? i) && (i <? Z.of_nat (List.length l)) = true).
  { apply andb_true_iff. split; [apply Z.leb_le | apply Z.ltb_lt]; lia. }
  rewrite H, Hx. reflexivity.
Qed.

(** C10. [ReadOne] on an axis other than 0 returns [self.data[axis]] (the
    element at that position when there is one) and changes neither the
    controller nor the trace; on axis 0 it stores the tuple of
    [readData] first, or raises what [readData] raises and stores
    nothing.  From the constructor, as long as no client call is
    [ReadOne(0)], the cache is the empty list and [ReadOne] on any other
    axis raises [IndexError]. *)
Theorem ReadOne_cache env np :
  (forall axis c tr,
     axis <> 0 ->
     Controller.ReadOne np axis (c, tr)
       = (py_index (Controller.data c) axis, (c, tr))) /\
  (forall axis c tr x,
     0 < axis -> nth_error (Controller.data c) (Z.to_nat axis) = Some x ->
     Controller.ReadOne np axis (c, tr) = (Returns x, (c, tr))) /\
  (forall c tr r,
     Boxcars.readData np (Controller.zhi c) = Returns r ->
     Controller.ReadOne np 0 (c, tr)
       = (py_index r 0, (Controller.set_data r c, tr))) /\
  (forall c tr e,
     Boxcars.readData np (Controller.zhi c) = Raises e ->
     Controller.ReadOne np 0 (c, tr) = (Raises e, (c, tr))) /\
  (forall IP port dev ifc settings repRate tmo c tr0 ops axis,
     Controller.init env IP port dev ifc settings repRate tmo []
       = (Returns c, tr0) ->
     forallb (fun o => negb (is_ReadOne_0 o)) ops = true ->
     axis <> 0 ->
     Controller.data (fst (Controller.run env np ops (c, tr0))) = [] /\
     fst (Controller.ReadOne np axis (Controller.run env np ops (c, tr0)))
       = Raises IndexError).
Proof.
  split; [intros; now apply ReadOne_other_axis|].
  split.
  { intros axis c tr x Hpos Hx.
    rewrite ReadOne_other_axis by lia.
    rewrite (py_index_nth _ _ x) by (assumption || lia). reflexivity. }
  split.
  { intros c tr r H. rewrite ReadOne_axis_0, H, set_zhi_same. reflexivity. }
  split.
  { intros c tr e H. rewrite ReadOne_axis_0, H, set_zhi_same. reflexivity. }
  intros IP port dev ifc settings repRate tmo c tr0 ops axis Hinit Hops Hax.
  destruct (controller_init_returns _ _ _ _ _ _ _ _ _ _ Hinit)
    as (_ & _ & _ & Hdata).
  pose proof (run_data env np ops (c, tr0) Hops) as Hrun.
  simpl in Hrun. rewrite Hdata in Hrun.
  split; [exact Hrun|].
  destruct (Controller.run env np ops (c, tr0)) as [c1 tr1].
  rewrite ReadOne_other_axis by assumption.
  simpl in *. rewrite Hrun. apply py_index_nil.
Qed.

Lemma ReadOne_cache_witness :
  Controller.data
    (fst (Controller.run (bench "BOX" 6 reply_a) l2r
            [Controller.CallStartOne 0 1%float; Controller.CallReadOne 1]
            (bench_controller, bench_trace))) = [] /\
  fst (Controller.ReadOne l2r 3
         (Controller.run (bench "BOX" 6 reply_a) l2r
            [Controller.CallStartOne 0 1%float; Controller.CallReadOne 1]
            (bench_controller, bench_trace)))
    = Raises IndexError.
Proof.
  apply (proj2 (proj2 (proj2 (proj2 (ReadOne_cache (bench "BOX" 6 reply_a) l2r))))
           "127.0.0.1" 8004 "dev2192" "1GbE" "PumpUnpumpBoxCar" 1500 30).
  - vm_compute. reflexivity.
  - reflexivity.
  - discriminate.
Defined.

(** * Further properties *)

(** ** Construction *)

(** X1. On a device without the BOX option the constructor raises the
    capability exception right after reading the clock base: the API
    level is not asked, nothing is synchronised and nothing is
    subscribed. *)
Theorem init_without_BOX env ip port api_level dev ifc settings repRate tmo tr :
  re_search "BOX" (device_options env dev) = false ->
  Boxcars.init env ip port api_level dev ifc settings repRate tmo tr =
    (Raises (Exception
       "This example can only be ran on a UHF with the BOX option enabled."),
     tr ++ session_calls env ip port api_level dev ifc settings) /\
  subscriptions (session_calls env ip port api_level dev ifc settings) = [] /\
  ~ In GetConnectionAPILevel
      (session_calls env ip port api_level dev ifc settings) /\
  ~ In Sync (session_calls env ip port api_level dev ifc settings).
Proof.
  intros H. rewrite init_cases, H. simpl negb. cbv iota.
  split; [reflexivity|]. split; [reflexivity|].
  split; intros Hin; simpl in Hin;
    repeat (destruct Hin as [Hin|Hin]; [discriminate Hin|]); exact Hin.
Qed.

Lemma init_without_BOX_witness :
  Boxcars.init (bench "MF PID" 6 reply_a) "127.0.0.1" 8004 6 "dev2192" "1GbE"
    "PumpUnpumpBoxCar.xml" 1500 30 [] =
    (Raises (Exception
       "This example can only be ran on a UHF with the BOX option enabled."),
     [] ++ session_calls (bench "MF PID" 6 reply_a) "127.0.0.1" 8004 6
             "dev2192" "1GbE" "PumpUnpumpBoxCar.xml") /\
  subscriptions (session_calls (bench "MF PID" 6 reply_a) "127.0.0.1" 8004 6
                   "dev2192" "1GbE" "PumpUnpumpBoxCar.xml") = [] /\
  ~ In GetConnectionAPILevel
      (session_calls (bench "MF PID" 6 reply_a) "127.0.0.1" 8004 6
         "dev2192" "1GbE" "PumpUnpumpBoxCar.xml") /\
  ~ In Sync (session_calls (bench "MF PID" 6 reply_a) "127.0.0.1" 8004 6
               "dev2192" "1GbE" "PumpUnpumpBoxCar.xml").
Proof.
  apply (init_without_BOX (bench "MF PID" 6 reply_a)). reflexivity.
Defined.

(** X2. The controller prints its SUCCESS line exactly when its
    constructor returns; a constructor that raises has subscribed to
    nothing. *)
Theorem success_line_iff_returns env IP port dev ifc settings repRate tmo :
  let r := Controller.init env IP port dev ifc settings repRate tmo [] in
  (In (Print (success_line IP port dev settings)) (snd r)
   <-> exists c, fst r = Returns c) /\
  (forall e, fst r = Raises e -> subscriptions (snd r) = []).
Proof.
  cbv zeta. unfold Controller.init, bind, emit, ret. simpl.
  rewrite init_cases.
  destruct (negb (re_search "BOX" (device_options env dev))).
  - simpl. split; [split|reflexivity].
    + intros Hin.
      repeat (destruct Hin as [Hin|Hin]; [discriminate Hin|]). contradiction.
    + intros [c Hc]. discriminate Hc.
  - destruct (negb (connection_api_level env =? 6)).
    + simpl. split; [split|reflexivity].
      * intros Hin.
        repeat (destruct Hin as [Hin|Hin]; [discriminate Hin|]). contradiction.
      * intros [c Hc]. discriminate Hc.
    + simpl. split; [split|].
      * intros _. eexists. reflexivity.
      * intros _. do 13 right. left. reflexivity.
      * intros e He. discriminate He.
Qed.

(** ** Acquisition *)

(** X3. [startAcq] on an object that still has its [daq] returns after
    exactly four calls: a clock reading, [flush], [poll(intTime, 500, 4,
    False)] and a second clock reading.  The two readings become
    [acqStartTime] and [acqEndTime], the reply of the poll becomes
    [data], [isAcquiring] is clear, and every other attribute is as it
    was. *)
Theorem startAcq_live env intTime b tr s :
  Boxcars.daq b = Some s ->
  Boxcars.startAcq env intTime (b, tr) =
    (Returns tt,
     ({| Boxcars.daq := Some s;
         Boxcars.device := Boxcars.device b;
         Boxcars.iface := Boxcars.iface b;
         Boxcars.timeOut := Boxcars.timeOut b;
         Boxcars.acqStartTime := Some (time_reply env (List.length tr));
         Boxcars.acqEndTime := Some (time_reply env (List.length tr + 3));
         Boxcars.isAcquiring := false;
         Boxcars.devtype := Boxcars.devtype b;
         Boxcars.options := Boxcars.options b;
         Boxcars.clock := Boxcars.clock b;
         Boxcars.data := Some (poll_reply env (List.length tr + 2)) |},
      tr ++ [Time; Flush; Poll intTime 500 4 false; Time])).
Proof.
  intros Hd. rewrite startAcq_run, pollData_run. simpl. rewrite Hd.
  unfold Boxcars.set_acqEndTime, Boxcars.set_isAcquiring, Boxcars.set_data,
    Boxcars.set_acqStartTime. simpl. rewrite Hd, length_app. simpl.
  rewrite <- app_assoc. simpl.
  replace (S (S (List.length tr + 1))) with (List.length tr + 3)%nat by lia.
  replace (S (List.length tr + 1)) with (List.length tr + 2)%nat by lia.
  reflexivity.
Qed.

Lemma startAcq_live_witness :
  Boxcars.startAcq (bench "BOX" 6 reply_a) 1%float
    (Controller.zhi bench_controller, bench_trace)
  = (Returns tt,
     (polled, bench_trace ++ [Time; Flush; Poll 1 500 4 false; Time])).
Proof.
  apply (startAcq_live (bench "BOX" 6 reply_a) 1%float
           (Controller.zhi bench_controller) bench_trace
           (Boxcars.Session "127.0.0.1" 8004 6)).
  reflexivity.
Defined.

Lemma reduction_duration np clk dur ts v1 v2 :
  nth_error (reduction np clk dur ts v1 v2) 6 = Some (Float dur).
Proof. reflexivity. Qed.

(** X4. The duration that [readData] returns (position 6 of the tuple)
    is the object's [acqEndTime] minus its [acqStartTime].  [startAcq]
    on a live object sets [acqStartTime] to its first clock reading and
    [acqEndTime] to the reading taken after the poll; [pollData] called
    on its own leaves [acqStartTime] alone and moves [acqEndTime] to the
    reading after its poll.  So the duration runs from the start of the
    latest [startAcq] to the end of the latest [pollData]. *)
Theorem readData_duration env np :
  (forall b out,
     Boxcars.readData np b = Returns out ->
     exists start stop,
       Boxcars.acqStartTime b = Some start /\
       Boxcars.acqEndTime b = Some stop /\
       nth_error out 6 = Some (Float (stop - start)%float)) /\
  (forall intTime b tr s,
     Boxcars.daq b = Some s ->
     let b' := fst (snd (Boxcars.startAcq env intTime (b, tr))) in
     Boxcars.acqStartTime b' = Some (time_reply env (List.length tr)) /\
     Boxcars.acqEndTime b' = Some (time_reply env (List.length tr + 3))) /\
  (forall intTime b tr s,
     Boxcars.daq b = Some s ->
     let b' := fst (snd (Boxcars.pollData env intTime (b, tr))) in
     Boxcars.acqStartTime b' = Boxcars.acqStartTime b /\
     Boxcars.acqEndTime b' = Some (time_reply env (List.length tr + 2))).
Proof.
  split; [|split].
  - intros b out H. apply readData_inv in H.
    destruct H as (v1 & t1 & v2 & t2 & f1 & f2 & l1 & l2 & sel1 & sel2 & dur
                   & _ & _ & _ & _ & _ & _ & _ & _ & _ & _ & _ & _ & _
                   & Hdur & ->).
    unfold Boxcars.py_sub in Hdur.
    destruct (Boxcars.acqEndTime b) as [stop|]; [|discriminate].
    destruct (Boxcars.acqStartTime b) as [start|]; [|discriminate].
    injection Hdur as <-. exists start, stop.
    split; [reflexivity|]. split; [reflexivity|]. apply reduction_duration.
  - intros intTime b tr s Hd. cbv zeta.
    rewrite startAcq_run, pollData_run. simpl. rewrite Hd. simpl.
    rewrite length_app. simpl.
    replace (S (S (List.length tr + 1))) with (List.length tr + 3)%nat by lia.
    split; reflexivity.
  - intros intTime b tr s Hd. cbv zeta.
    rewrite pollData_run, Hd. simpl.
    replace (S (S (List.length tr))) with (List.length tr + 2)%nat by lia.
    split; reflexivity.
Qed.

Lemma readData_duration_witness :
  let env := bench "BOX" 6 reply_a in
  let b1 := fst (snd (Boxcars.startAcq env 1%float
                        (Controller.zhi bench_controller, bench_trace))) in
  let tr1 := bench_trace ++ [Time; Flush; Poll 1 500 4 false; Time] in
  let b2 := fst (snd (Boxcars.pollData env 1%float (b1, tr1))) in
  (exists start stop,
     Boxcars.acqStartTime b2 = Some start /\
     Boxcars.acqEndTime b2 = Some stop /\
     nth_error
       [Float 4; Float 3; Float 1; Float 1; Int 2; Float 18000000; Float 6;
        Float (4 / 3); Float 1] 6 = Some (Float (stop - start)%float)) /\
  (Boxcars.acqStartTime b1
     = Some (time_reply env (List.length bench_trace)) /\
   Boxcars.acqEndTime b1
     = Some (time_reply env (List.length bench_trace + 3))) /\
  (Boxcars.acqStartTime b2 = Boxcars.acqStartTime b1 /\
   Boxcars.acqEndTime b2 = Some (time_reply env (List.length tr1 + 2))).
Proof.
  cbv zeta.
  destruct (readData_duration (bench "BOX" 6 reply_a) l2r) as (H1 & H2 & H3).
  split; [|split].
  - apply H1. vm_compute. reflexivity.
  - apply (H2 1%float (Controller.zhi bench_controller) bench_trace
             (Boxcars.Session "127.0.0.1" 8004 6)).
    reflexivity.
  - apply (H3 1%float _ _ (Boxcars.Session "127.0.0.1" 8004 6)).
    reflexivity.
Defined.

(** X5. [startAcq] on an object whose [daq] has been deleted raises
    [AttributeError] at [flush], after one clock reading and no device
    call.  It leaves [isAcquiring] set, [data] the empty list and
    [acqEndTime] as it was, and [readData] then raises [TypeError]. *)
Theorem startAcq_closed env np intTime b tr :
  Boxcars.daq b = None ->
  let r := Boxcars.startAcq env intTime (b, tr) in
  fst r = Raises (AttributeError "daq") /\
  snd (snd r) = tr ++ [Time] /\
  Boxcars.isAcquiring (fst (snd r)) = true /\
  Boxcars.data (fst (snd r)) = Some (PyList []) /\
  Boxcars.acqStartTime (fst (snd r))
    = Some (time_reply env (List.length tr)) /\
  Boxcars.acqEndTime (fst (snd r)) = Boxcars.acqEndTime b /\
  Boxcars.readData np (fst (snd r)) = Raises TypeError.
Proof.
  intros Hd. cbv zeta. rewrite startAcq_run, pollData_run. simpl.
  rewrite Hd. simpl. repeat split.
Qed.

Lemma startAcq_closed_witness :
  let b := Boxcars.set_daq None polled in
  let r := Boxcars.startAcq (bench "BOX" 6 reply_a) 1%float (b, []) in
  fst r = Raises (AttributeError "daq") /\
  snd (snd r) = [] ++ [Time] /\
  Boxcars.isAcquiring (fst (snd r)) = true /\
  Boxcars.data (fst (snd r)) = Some (PyList []) /\
  Boxcars.acqStartTime (fst (snd r))
    = Some (time_reply (bench "BOX" 6 reply_a) (List.length (@nil call))) /\
  Boxcars.acqEndTime (fst (snd r)) = Boxcars.acqEndTime b /\
  Boxcars.readData l2r (fst (snd r)) = Raises TypeError.
Proof.
  cbv zeta.
  apply (startAcq_closed (bench "BOX" 6 reply_a) l2r 1%float
           (Boxcars.set_daq None polled) []).
  reflexivity.
Defined.

(** X6. [close] on an object that has its [daq] makes the single call
    [unsubscribe('*')] and deletes [daq], touching nothing else.  A
    second [close], like a later [pollData], raises [AttributeError]
    without any call. *)
Theorem close_once env intTime b tr s tr' :
  Boxcars.daq b = Some s ->
  Boxcars.close (b, tr)
    = (Returns tt, (Boxcars.set_daq None b, tr ++ [Unsubscribe "*"])) /\
  Boxcars.close (Boxcars.set_daq None b, tr')
    = (Raises (AttributeError "daq"), (Boxcars.set_daq None b, tr')) /\
  Boxcars.pollData env intTime (Boxcars.set_daq None b, tr')
    = (Raises (AttributeError "daq"), (Boxcars.set_daq None b, tr')).
Proof.
  intros Hd. rewrite !close_run, pollData_run, Hd. simpl.
  repeat split.
Qed.

Lemma close_once_witness :
  Boxcars.close (polled, [])
    = (Returns tt, (Boxcars.set_daq None polled, [] ++ [Unsubscribe "*"])) /\
  Boxcars.close (Boxcars.set_daq None polled, [Unsubscribe "*"])
    = (Raises (AttributeError "daq"),
       (Boxcars.set_daq None polled, [Unsubscribe "*"])) /\
  Boxcars.pollData (bench "BOX" 6 reply_a) 1%float
      (Boxcars.set_daq None polled, [Unsubscribe "*"])
    = (Raises (AttributeError "daq"),
       (Boxcars.set_daq None polled, [Unsubscribe "*"])).
Proof.
  apply (close_once (bench "BOX" 6 reply_a) 1%float polled []
           (Boxcars.Session "127.0.0.1" 8004 6)).
  reflexivity.
Defined.

(** ** Reading: errors and edges *)

(** While [data] has never been assigned, [readData] raises
    [AttributeError]. *)
Lemma readData_no_attribute np b :
  Boxcars.data b = None ->
  Boxcars.readData np b = Raises (AttributeError "data").
Proof.
  intros H. unfold Boxcars.readData, Boxcars.sample_value, Boxcars.self_data.
  rewrite H. reflexivity.
Qed.

(** X8. A poll that brought nothing for the device (the dictionary has
    no entry for it, as when the reply is empty) makes [readData] raise
    [KeyError] on the device name. *)
Theorem readData_missing_device np b items :
  Boxcars.data b = Some (PyDict items) ->
  dict_get items (Boxcars.device b) = None ->
  Boxcars.readData np b = Raises (KeyError (Boxcars.device b)).
Proof.
  intros Hd Hk.
  unfold Boxcars.readData, Boxcars.sample_value, Boxcars.self_data,
    Boxcars.sample_leaf, getitem.
  rewrite Hd. simpl. rewrite Hk. reflexivity.
Qed.

Lemma readData_missing_device_witness :
  Boxcars.readData l2r (Boxcars.set_data (Some (PyDict [])) polled)
    = Raises (KeyError (Boxcars.device
                          (Boxcars.set_data (Some (PyDict [])) polled))).
Proof.
  apply (readData_missing_device l2r
           (Boxcars.set_data (Some (PyDict [])) polled) []);
    reflexivity.
Defined.

(** X9. If one of the two channels delivered no time stamp, [readData]
    raises [IndexError] when it takes the first stamps. *)
Theorem readData_empty_channel np b v1 t1 v2 t2 :
  Boxcars.sample_value b "0" = Returns v1 ->
  Boxcars.sample_timestamp b "0" = Returns t1 ->
  Boxcars.sample_value b "1" = Returns v2 ->
  Boxcars.sample_timestamp b "1" = Returns t2 ->
  t1 = [] \/ t2 = [] ->
  Boxcars.readData np b = Raises IndexError.
Proof.
  intros H1 H2 H3 H4 He. unfold Boxcars.readData.
  rewrite H1, H2, H3, H4. simpl obind.
  destruct t1 as [|x t1].
  - reflexivity.
  - rewrite (py_index_first (x :: t1)) by discriminate. simpl obind.
    destruct He as [He|He]; [discriminate He|]. subst t2. reflexivity.
Qed.

Lemma readData_empty_channel_witness :
  Boxcars.readData l2r
    (Boxcars.set_data
       (Some (poll_result "dev2192" [1%float] [100] [] [])) polled)
    = Raises IndexError.
Proof.
  apply (readData_empty_channel l2r
           (Boxcars.set_data
              (Some (poll_result "dev2192" [1%float] [100] [] [])) polled)
           [1%float] [100] [] []);
    try reflexivity.
  right. reflexivity.
Defined.

(** [readData] on two channels that each have as many stamps as values,
    and at least one: only the subtraction of the clock readings is left
    to fail. *)
Lemma readData_wellformed np b v1 t1 v2 t2 :
  Boxcars.sample_value b "0" = Returns v1 ->
  Boxcars.sample_timestamp b "0" = Returns t1 ->
  Boxcars.sample_value b "1" = Returns v2 ->
  Boxcars.sample_timestamp b "1" = Returns t2 ->
  List.length t1 = List.length v1 ->
  List.length t2 = List.length v2 ->
  t1 <> [] -> t2 <> [] ->
  let lo := Z.max (hd 0 t1) (hd 0 t2) in
  let hi := Z.min (last t1 0) (last t2 0) in
  let w1 := filter (kept lo hi) (combine t1 v1) in
  let w2 := filter (kept lo hi) (combine t2 v2) in
  Boxcars.readData np b =
    obind (Boxcars.py_sub (Boxcars.acqEndTime b) (Boxcars.acqStartTime b))
      (fun dur => Returns (reduction np (Boxcars.clock b) dur
                             (map fst w1) (map snd w1) (map snd w2))).
Proof.
  intros H1 H2 H3 H4 L1 L2 N1 N2 lo hi w1 w2.
  unfold Boxcars.readData. rewrite H1, H2, H3, H4. simpl obind.
  rewrite (py_index_first t1 N1), (py_index_first t2 N2). simpl obind.
  rewrite (py_index_last t1 N1), (py_index_last t2 N2). simpl obind.
  fold lo hi.
  rewrite (select_mask_kept t1 v1 lo hi L1),
          (select_mask_kept t2 v2 lo hi L2). simpl obind.
  rewrite (np_getmask_fst (kept lo hi) t1 v1 L1),
          (np_getmask_snd (kept lo hi) t1 v1 L1),
          (np_getmask_snd (kept lo hi) t2 v2 L2).
  fold w1 w2.
  destruct (Boxcars.py_sub (Boxcars.acqEndTime b) (Boxcars.acqStartTime b));
    simpl; [|reflexivity].
  unfold reduction. rewrite !length_map. reflexivity.
Qed.

Lemma filter_kept_empty lo hi (l : list (Z * float)) :
  hi < lo -> filter (kept lo hi) l = [].
Proof.
  intros H. induction l as [|s l IH]; simpl; [reflexivity|].
  unfold kept at 1, in_window.
  destruct (Z.leb_spec lo (fst s)); destruct (Z.leb_spec (fst s) hi);
    simpl; try exact IH. lia.
Qed.

(** X10. When the two channels do not overlap in time (the earlier of
    the last stamps lies before the later of the first stamps),
    [readData] still returns: it selects nothing, the count is 0 and
    every statistic is that of an empty array. *)
Theorem readData_disjoint_channels np b v1 t1 v2 t2 start stop :
  Boxcars.sample_value b "0" = Returns v1 ->
  Boxcars.sample_timestamp b "0" = Returns t1 ->
  Boxcars.sample_value b "1" = Returns v2 ->
  Boxcars.sample_timestamp b "1" = Returns t2 ->
  List.length t1 = List.length v1 ->
  List.length t2 = List.length v2 ->
  t1 <> [] -> t2 <> [] ->
  Boxcars.acqStartTime b = Some start ->
  Boxcars.acqEndTime b = Some stop ->
  Z.min (last t1 0) (last t2 0) < Z.max (hd 0 t1) (hd 0 t2) ->
  Boxcars.readData np b =
    Returns [Float (np_mean np []); Float (np_mean np []);
             Float (sem np []); Float (sem np []); Int 0;
             Float (1 / (np_mean_u64 np [] / Boxcars.clock b))%float;
             Float (stop - start)%float;
             Float (np_mean np [] / np_mean np [])%float;
             Float (abs (np_mean np [] - np_mean np [])%float)].
Proof.
  intros H1 H2 H3 H4 L1 L2 N1 N2 Hs He Hw.
  rewrite (readData_wellformed np b v1 t1 v2 t2) by assumption.
  rewrite Hs, He. simpl. rewrite !filter_kept_empty by assumption.
  reflexivity.
Qed.

Lemma readData_disjoint_channels_witness :
  let b := Boxcars.set_data
             (Some (poll_result "dev2192" [1%float; 2%float] [100; 200]
                      [3%float; 4%float] [300; 400])) polled in
  Boxcars.readData l2r b =
    Returns [Float (np_mean l2r []); Float (np_mean l2r []);
             Float (sem l2r []); Float (sem l2r []); Int 0;
             Float (1 / (np_mean_u64 l2r [] / Boxcars.clock b))%float;
             Float (17 - 14)%float;
             Float (np_mean l2r [] / np_mean l2r [])%float;
             Float (abs (np_mean l2r [] - np_mean l2r [])%float)].
Proof.
  cbv zeta.
  apply (readData_disjoint_channels l2r _
           [1%float; 2%float] [100; 200] [3%float; 4%float] [300; 400]);
    try reflexivity; discriminate.
Defined.

(** X11. With well-formed channel data but no [acqStartTime] (a
    [pollData] that was not called through [startAcq]), [readData]
    raises [TypeError] at the subtraction of the clock readings. *)
Theorem readData_without_start np b v1 t1 v2 t2 :
  Boxcars.sample_value b "0" = Returns v1 ->
  Boxcars.sample_timestamp b "0" = Returns t1 ->
  Boxcars.sample_value b "1" = Returns v2 ->
  Boxcars.sample_timestamp b "1" = Returns t2 ->
  List.length t1 = List.length v1 ->
  List.length t2 = List.length v2 ->
  t1 <> [] -> t2 <> [] ->
  Boxcars.acqStartTime b = None ->
  Boxcars.readData np b = Raises TypeError.
Proof.
  intros H1 H2 H3 H4 L1 L2 N1 N2 Hs.
  rewrite (readData_wellformed np b v1 t1 v2 t2) by assumption.
  rewrite Hs. destruct (Boxcars.acqEndTime b); reflexivity.
Qed.

Lemma readData_without_start_witness :
  Boxcars.readData l2r
    (fst (snd (Boxcars.pollData (bench "BOX" 6 reply_a) 1%float
                 (Controller.zhi bench_controller, bench_trace))))
    = Raises TypeError.
Proof.
  apply (readData_without_start l2r _
           [1%float; nan; 3%float; 5%float] [100; 200; 300; 400]
           [2%float; 4%float; nan; 8%float] [150; 250; 350; 450]);
    try reflexivity; discriminate.
Defined.

(** ** The controller between acquisitions *)

Lemma fresh_call_op env np o c tr :
  starts_acquisition o = false ->
  Boxcars.data (Controller.zhi c) = None /\ Controller.data c = [] ->
  let s' := snd (Controller.call_op env np o (c, tr)) in
  Boxcars.data (Controller.zhi (fst s')) = None /\
  Controller.data (fst s') = [].
Proof.
  intros Ho [Hz Hc]. destruct o; simpl in Ho; try discriminate Ho;
    cbv zeta; try (split; assumption).
  - (* ReadOne *)
    unfold Controller.call_op, Controller.forget, bind.
    destruct (Z.eqb_spec axis 0) as [->|Hne].
    + rewrite ReadOne_axis_0, (readData_no_attribute np _ Hz), set_zhi_same.
      simpl. split; assumption.
    + rewrite (ReadOne_other_axis np axis c tr Hne).
      destruct (py_index (Controller.data c) axis); simpl; split; assumption.
  - (* StartOne on another axis *)
    unfold Controller.call_op, Controller.StartOne. rewrite Ho.
    simpl. split; assumption.
  - (* zhi.readData *)
    unfold Controller.call_op, Controller.forget, Controller.on_zhi, bind, ret.
    simpl. rewrite (readData_no_attribute np _ Hz). simpl.
    split; assumption.
  - (* zhi.close *)
    unfold Controller.call_op, Controller.on_zhi. simpl.
    rewrite close_run. destruct (Boxcars.daq (Controller.zhi c)); simpl;
      split; assumption.
Qed.

Lemma fresh_run env np ops s :
  forallb (fun o => negb (starts_acquisition o)) ops = true ->
  Boxcars.data (Controller.zhi (fst s)) = None /\
  Controller.data (fst s) = [] ->
  Boxcars.data (Controller.zhi (fst (Controller.run env np ops s))) = None /\
  Controller.data (fst (Controller.run env np ops s)) = [].
Proof.
  revert s; induction ops as [|o ops IH]; intros [c tr] Hops H; simpl.
  - exact H.
  - simpl in Hops. apply andb_true_iff in Hops. destruct Hops as [Ho Hops].
    apply negb_true_iff in Ho.
    apply IH; [assumption|]. now apply fresh_call_op.
Qed.

(** X7. From the constructor, through client calls none of which starts
    an acquisition, the [boxcars] object has no [data] attribute:
    [ReadOne(0)] raises [AttributeError], makes no device call and
    leaves the cache the empty list. *)
Theorem ReadOne_before_acquisition
    env np IP port dev ifc settings repRate tmo c tr0 ops :
  Controller.init env IP port dev ifc settings repRate tmo []
    = (Returns c, tr0) ->
  forallb (fun o => negb (starts_acquisition o)) ops = true ->
  let s := Controller.run env np ops (c, tr0) in
  Controller.ReadOne np 0 s = (Raises (AttributeError "data"), s) /\
  Controller.data (fst s) = [].
Proof.
  intros Hinit Hops s.
  destruct (controller_init_returns _ _ _ _ _ _ _ _ _ _ Hinit)
    as (_ & Hz & _ & Hc).
  destruct (fresh_run env np ops (c, tr0) Hops (conj Hz Hc)) as [Hz' Hc'].
  fold s in Hz', Hc'. split; [|exact Hc'].
  destruct s as [c1 tr1]. simpl in Hz'.
  rewrite ReadOne_axis_0, (readData_no_attribute np _ Hz'), set_zhi_same.
  reflexivity.
Qed.

Lemma ReadOne_before_acquisition_witness :
  let s := Controller.run (bench "BOX" 6 reply_a) l2r
             [Controller.CallStartOne 1 1%float; Controller.CallReadOne 0;
              Controller.CallZhiClose]
             (bench_controller, bench_trace) in
  Controller.ReadOne l2r 0 s = (Raises (AttributeError "data"), s) /\
  Controller.data (fst s) = [].
Proof.
  apply (ReadOne_before_acquisition (bench "BOX" 6 reply_a) l2r "127.0.0.1"
           8004 "dev2192" "1GbE" "PumpUnpumpBoxCar" 1500 30).
  - vm_compute. reflexivity.
  - reflexivity.
Defined.

Lemma compress_length_le {A : Type} (a : list A) (mask : list bool) :
  (List.length (compress a mask) <= List.length a)%nat.
Proof.
  revert mask; induction a as [|x a IH]; intros [|m mask]; simpl;
    try lia.
  destruct m; simpl; specialize (IH mask); lia.
Qed.

(** X12. Whenever [readData] returns, the tuple has nine entries; the
    entry at position 4 is an integer between 0 and the number of
    values of channel 1, and the other eight are floats. *)
Theorem readData_tuple_shape np b out :
  Boxcars.readData np b = Returns out ->
  List.length out = 9%nat /\
  (exists v1 n,
     Boxcars.sample_value b "0" = Returns v1 /\
     nth_error out 4 = Some (Int n) /\
     0 <= n <= Z.of_nat (List.length v1)) /\
  (forall i x, i <> 4%nat -> nth_error out i = Some x -> is_Float x = true).
Proof.
  intros H. apply readData_inv in H.
  destruct H as (v1 & t1 & v2 & t2 & f1 & f2 & l1 & l2 & sel1 & sel2 & dur
                 & H1 & _ & _ & _ & _ & _ & _ & _ & _ & _ & _ & _ & _
                 & _ & ->).
  split; [reflexivity|]. split.
  - exists v1, (Z.of_nat (List.length (compress v1 sel1))).
    split; [assumption|]. split; [reflexivity|].
    pose proof (compress_length_le v1 sel1). lia.
  - intros i x Hi Hx. unfold reduction in Hx.
    do 9 (destruct i as [|i];
          [try (injection Hx as <-; reflexivity); congruence|]).
    destruct i; discriminate Hx.
Qed.

Lemma readData_tuple_shape_witness :
  List.length
    [Float 4; Float 3; Float 1; Float 1; Int 2; Float 18000000; Float 3;
     Float (4 / 3); Float 1] = 9%nat /\
  (exists v1 n,
     Boxcars.sample_value polled "0" = Returns v1 /\
     nth_error
       [Float 4; Float 3; Float 1; Float 1; Int 2; Float 18000000; Float 3;
        Float (4 / 3); Float 1] 4 = Some (Int n) /\
     0 <= n <= Z.of_nat (List.length v1)) /\
  (forall i x, i <> 4%nat ->
     nth_error
       [Float 4; Float 3; Float 1; Float 1; Int 2; Float 18000000; Float 3;
        Float (4 / 3); Float 1] i = Some x -> is_Float x = true).
Proof.
  apply (readData_tuple_shape l2r polled). vm_compute. reflexivity.
Defined.

Lemma py_index_in_range {A : Type} (l : list A) (i : Z) :
  - Z.of_nat (List.length l) <= i < Z.of_nat (List.length l) ->
  exists x, py_index l i = Returns x.
Proof.
  intros Hi. unfold py_index.
  destruct (Z.leb_spec 0 i) as [Hpos|Hneg]; simpl.
  - destruct (Z.ltb_spec i (Z.of_nat (List.length l))) as [Hlt|]; [|lia].
    destruct (nth_error l (Z.to_nat i)) as [x|] eqn:E.
    + exists x. reflexivity.
    + apply nth_error_None in E. lia.
  - destruct (Z.leb_spec (- Z.of_nat (List.length l)) i); [|lia].
    destruct (Z.ltb_spec i 0); [|lia]. simpl.
    destruct (nth_error l (Z.to_nat (Z.of_nat (List.length l) + i)))
      as [x|] eqn:E.
    + exists x. reflexivity.
    + apply nth_error_None in E. lia.
Qed.

Lemma py_index_out_of_range {A : Type} (l : list A) (i : Z) :
  i < - Z.of_nat (List.length l) \/ Z.of_nat (List.length l) <= i ->
  py_index l i = Raises IndexError.
Proof.
  intros Hi. unfold py_index.
  destruct (Z.leb_spec 0 i) as [Hpos|Hneg]; simpl.
  - destruct (Z.ltb_spec i (Z.of_nat (List.length l))); [lia|].
    destruct (Z.leb_spec (- Z.of_nat (List.length l)) i); simpl;
      [|reflexivity].
    destruct (Z.ltb_spec i 0); [lia | reflexivity].
  - destruct (Z.leb_spec (- Z.of_nat (List.length l)) i); [lia|].
    reflexivity.
Qed.

Lemma readData_length np b out :
  Boxcars.readData np b = Returns out -> List.length out = 9%nat.
Proof.
  intros H. apply readData_inv in H.
  destruct H as (v1 & t1 & v2 & t2 & f1 & f2 & l1 & l2 & sel1 & sel2 & dur
                 & _ & _ & _ & _ & _ & _ & _ & _ & _ & _ & _ & _ & _
                 & _ & ->).
  reflexivity.
Qed.

(** X13. Once [ReadOne(0)] has returned, the cache holds the nine
    readings of that call and the [boxcars] object and the trace are as
    before; [ReadOne] then returns for every axis from -9 to 8 and
    raises [IndexError], changing nothing, for every other axis. *)
Theorem ReadOne_axes np c tr x c' tr' :
  Controller.ReadOne np 0 (c, tr) = (Returns x, (c', tr')) ->
  tr' = tr /\ Controller.zhi c' = Controller.zhi c /\
  Boxcars.readData np (Controller.zhi c) = Returns (Controller.data c') /\
  List.length (Controller.data c') = 9%nat /\
  (forall axis, -9 <= axis < 9 ->
     exists y, fst (Controller.ReadOne np axis (c', tr')) = Returns y) /\
  (forall axis, axis < -9 \/ 9 <= axis ->
     Controller.ReadOne np axis (c', tr') = (Raises IndexError, (c', tr'))).
Proof.
  rewrite ReadOne_axis_0, set_zhi_same.
  destruct (Boxcars.readData np (Controller.zhi c)) as [r|e] eqn:Er;
    [|discriminate].
  intros H. injection H as Hx <- <-.
  pose proof (readData_length np _ r Er) as Hlen.
  split; [reflexivity|]. split; [reflexivity|]. split; [reflexivity|].
  split; [exact Hlen|]. split.
  - intros axis Hax. destruct (Z.eq_dec axis 0) as [->|Hne].
    + rewrite ReadOne_axis_0. simpl. rewrite Er. simpl.
      exists x. exact Hx.
    + rewrite (ReadOne_other_axis np axis _ tr Hne). simpl.
      apply py_index_in_range. rewrite Hlen. simpl. lia.
  - intros axis Hax.
    rewrite ReadOne_other_axis by lia. simpl.
    rewrite py_index_out_of_range; [reflexivity|].
    rewrite Hlen. simpl. lia.
Qed.

Lemma ReadOne_axes_witness :
  let c := Controller.set_zhi polled bench_controller in
  let c' := Controller.set_data
              [Float 4; Float 3; Float 1; Float 1; Int 2; Float 18000000;
               Float 3; Float (4 / 3); Float 1] c in
  @nil call = [] /\ Controller.zhi c' = Controller.zhi c /\
  Boxcars.readData l2r (Controller.zhi c) = Returns (Controller.data c') /\
  List.length (Controller.data c') = 9%nat /\
  (forall axis, -9 <= axis < 9 ->
     exists y, fst (Controller.ReadOne l2r axis (c', [])) = Returns y) /\
  (forall axis, axis < -9 \/ 9 <= axis ->
     Controller.ReadOne l2r axis (c', []) = (Raises IndexError, (c', []))).
Proof.
  cbv zeta.
  apply (ReadOne_axes l2r (Controller.set_zhi polled bench_controller) []
           (Float 4)).
  vm_compute. reflexivity.
Defined.

(** ** The calls of a run *)

Lemma controller_call_op_trace env np o c tr :
  is_zhi_call o = false ->
  Boxcars.daq (Controller.zhi c) <> None ->
  let s' := snd (Controller.call_op env np o (c, tr)) in
  snd s' = tr ++ calls_of o /\
  Boxcars.daq (Controller.zhi (fst s')) <> None.
Proof.
  intros Ho Hd. destruct o; simpl in Ho; try discriminate Ho; cbv zeta;
    try (simpl; rewrite app_nil_r; split; [reflexivity | assumption]).
  - (* ReadOne *)
    unfold Controller.call_op, Controller.forget, bind, calls_of.
    rewrite app_nil_r.
    destruct (Z.eqb_spec axis 0) as [->|Hne].
    + rewrite ReadOne_axis_0, set_zhi_same.
      destruct (Boxcars.readData np (Controller.zhi c)); simpl.
      * destruct (py_index a 0); simpl; split; (reflexivity || assumption).
      * split; (reflexivity || assumption).
    + rewrite (ReadOne_other_axis np axis c tr Hne).
      destruct (py_index (Controller.data c) axis); simpl;
        split; (reflexivity || assumption).
  - (* StartOne *)
    unfold Controller.call_op, Controller.StartOne, calls_of.
    destruct (axis =? 0).
    + unfold Controller.on_zhi. simpl.
      destruct (Boxcars.daq (Controller.zhi c)) as [h|] eqn:Ed;
        [|contradiction].
      rewrite startAcq_run, pollData_run. simpl. rewrite Ed. simpl.
      rewrite Ed, <- app_assoc. simpl. split; [reflexivity | discriminate].
    + simpl. rewrite app_nil_r. split; [reflexivity | assumption].
Qed.

Lemma controller_run_trace env np ops c tr :
  forallb (fun o => negb (is_zhi_call o)) ops = true ->
  Boxcars.daq (Controller.zhi c) <> None ->
  snd (Controller.run env np ops (c, tr)) = tr ++ flat_map calls_of ops.
Proof.
  revert c tr; induction ops as [|o ops IH]; intros c tr Hops Hd; simpl.
  - now rewrite app_nil_r.
  - simpl in Hops. apply andb_true_iff in Hops. destruct Hops as [Ho Hops].
    apply negb_true_iff in Ho.
    destruct (controller_call_op_trace env np o c tr Ho Hd) as [Ht Hd'].
    destruct (Controller.call_op env np o (c, tr)) as [r [c1 tr1]].
    simpl in Ht, Hd'. simpl. rewrite IH by assumption.
    rewrite Ht, <- app_assoc. reflexivity.
Qed.

(** X14. From the constructor, a client that only calls the methods of
    the controller makes the device calls of one acquisition (clock,
    [flush], [poll(value, 500, 4, False)], clock) for each [StartOne] on
    axis 0, in order, and no other call: reading, asking the state,
    loading, stopping and starting any other axis never reach the
    device. *)
Theorem controller_calls env np IP port dev ifc settings repRate tmo c tr0 ops :
  Controller.init env IP port dev ifc settings repRate tmo []
    = (Returns c, tr0) ->
  forallb (fun o => negb (is_zhi_call o)) ops = true ->
  snd (Controller.run env np ops (c, tr0)) = tr0 ++ flat_map calls_of ops.
Proof.
  intros Hinit Hops. apply controller_run_trace; [assumption|].
  unfold Controller.init, bind, emit, ret in Hinit. simpl in Hinit.
  rewrite init_cases in Hinit.
  destruct (negb (re_search "BOX" (device_options env dev)));
    [discriminate|].
  destruct (negb (connection_api_level env =? 6)); [discriminate|].
  simpl in Hinit. injection Hinit as <- _. simpl. discriminate.
Qed.

Lemma controller_calls_witness :
  snd (Controller.run (bench "BOX" 6 reply_a) l2r
         [Controller.CallStartOne 0 1%float; Controller.CallStopOne 0;
          Controller.CallStateOne 0; Controller.CallReadOne 0;
          Controller.CallStartOne 1 1%float; Controller.CallStartOne 0 2%float]
         (bench_controller, bench_trace))
  = bench_trace ++
    flat_map calls_of
      [Controller.CallStartOne 0 1%float; Controller.CallStopOne 0;
       Controller.CallStateOne 0; Controller.CallReadOne 0;
       Controller.CallStartOne 1 1%float; Controller.CallStartOne 0 2%float].
Proof.
  apply (controller_calls (bench "BOX" 6 reply_a) l2r "127.0.0.1" 8004
           "dev2192" "1GbE" "PumpUnpumpBoxCar" 1500 30).
  - vm_compute. reflexivity.
  - reflexivity.
Defined.

(** ** Acquire, then read *)

Lemma poll_result_channels b v1 t1 v2 t2 :
  Boxcars.data b = Some (poll_result (Boxcars.device b) v1 t1 v2 t2) ->
  Boxcars.sample_value b "0" = Returns v1 /\
  Boxcars.sample_timestamp b "0" = Returns t1 /\
  Boxcars.sample_value b "1" = Returns v2 /\
  Boxcars.sample_timestamp b "1" = Returns t2.
Proof.
  intros H.
  unfold Boxcars.sample_value, Boxcars.sample_timestamp, Boxcars.self_data,
    Boxcars.sample_leaf, poll_result, boxcar_node.
  rewrite H. simpl. rewrite String.eqb_refl. simpl. repeat split.
Qed.

(** X15. The usual sequence on a live controller.  [StartOne(0, value)]
    makes the four calls of one acquisition; if the poll then delivered,
    for the controller's device, two channels with as many stamps as
    values and at least one each, [ReadOne(0)] returns the mean of the
    kept samples of channel 1 without a further call, and afterwards
    [ReadOne(1)], [ReadOne(4)] and [ReadOne(6)] return the mean of
    channel 2, the number of kept samples of channel 1 and the time
    between the two clock readings of that acquisition. *)
Theorem acquire_then_read env np value c tr h v1 t1 v2 t2 :
  Boxcars.daq (Controller.zhi c) = Some h ->
  poll_reply env (List.length tr + 2)
    = poll_result (Boxcars.device (Controller.zhi c)) v1 t1 v2 t2 ->
  List.length t1 = List.length v1 ->
  List.length t2 = List.length v2 ->
  t1 <> [] -> t2 <> [] ->
  let lo := Z.max (hd 0 t1) (hd 0 t2) in
  let hi := Z.min (last t1 0) (last t2 0) in
  let w1 := filter (kept lo hi) (combine t1 v1) in
  let w2 := filter (kept lo hi) (combine t2 v2) in
  let s1 := snd (Controller.StartOne env 0 value (c, tr)) in
  snd s1 = tr ++ [Time; Flush; Poll value 500 4 false; Time] /\
  exists c2,
    Controller.ReadOne np 0 s1
      = (Returns (Float (np_mean np (map snd w1))), (c2, snd s1)) /\
    fst (Controller.ReadOne np 1 (c2, snd s1))
      = Returns (Float (np_mean np (map snd w2))) /\
    fst (Controller.ReadOne np 4 (c2, snd s1))
      = Returns (Int (Z.of_nat (List.length w1))) /\
    fst (Controller.ReadOne np 6 (c2, snd s1))
      = Returns (Float (time_reply env (List.length tr + 3)
                        - time_reply env (List.length tr))%float).
Proof.
  intros Hd Hp L1 L2 N1 N2 lo hi w1 w2 s1.
  assert (Hs1 : s1 =
    (Controller.set_zhi
       {| Boxcars.daq := Some h;
          Boxcars.device := Boxcars.device (Controller.zhi c);
          Boxcars.iface := Boxcars.iface (Controller.zhi c);
          Boxcars.timeOut := Boxcars.timeOut (Controller.zhi c);
          Boxcars.acqStartTime := Some (time_reply env (List.length tr));
          Boxcars.acqEndTime := Some (time_reply env (List.length tr + 3));
          Boxcars.isAcquiring := false;
          Boxcars.devtype := Boxcars.devtype (Controller.zhi c);
          Boxcars.options := Boxcars.options (Controller.zhi c);
          Boxcars.clock := Boxcars.clock (Controller.zhi c);
          Boxcars.data :=
            Some (poll_result (Boxcars.device (Controller.zhi c))
                    v1 t1 v2 t2) |} c,
     tr ++ [Time; Flush; Poll value 500 4 false; Time])).
  { unfold s1, Controller.StartOne, Controller.on_zhi. simpl.
    rewrite startAcq_run, pollData_run. simpl. rewrite Hd. simpl.
    unfold Boxcars.set_acqEndTime, Boxcars.set_isAcquiring, Boxcars.set_data,
      Boxcars.set_acqStartTime. simpl.
    rewrite ?Hd, length_app, <- app_assoc. simpl.
    replace (S (S (List.length tr + 1))) with (List.length tr + 3)%nat by lia.
    replace (S (List.length tr + 1)) with (List.length tr + 2)%nat by lia.
    rewrite Hp. reflexivity. }
  rewrite Hs1. cbn [snd]. split; [reflexivity|].
  match goal with
  | |- context [Controller.set_zhi ?z c] => set (b := z)
  end.
  destruct (poll_result_channels b v1 t1 v2 t2 eq_refl)
    as (C1 & C2 & C3 & C4).
  pose proof (readData_wellformed np b v1 t1 v2 t2 C1 C2 C3 C4 L1 L2 N1 N2)
    as Hr.
  cbv zeta in Hr. fold lo hi in Hr. fold w1 w2 in Hr. simpl in Hr.
  eexists. rewrite ReadOne_axis_0. cbn [Controller.zhi Controller.set_zhi].
  rewrite Hr. split; [reflexivity|].
  repeat split; rewrite ReadOne_other_axis by discriminate;
    cbn [fst Controller.data Controller.set_data]; unfold reduction;
    try reflexivity.
  simpl. rewrite length_map. reflexivity.
Qed.

Lemma acquire_then_read_witness :
  let env := bench "BOX" 6 reply_a in
  let s1 := snd (Controller.StartOne env 0 1%float
                   (bench_controller, bench_trace)) in
  snd s1 = bench_trace ++ [Time; Flush; Poll 1 500 4 false; Time] /\
  exists c2,
    Controller.ReadOne l2r 0 s1
      = (Returns (Float (np_mean l2r [3%float; 5%float])), (c2, snd s1)) /\
    fst (Controller.ReadOne l2r 1 (c2, snd s1))
      = Returns (Float (np_mean l2r [2%float; 4%float])) /\
    fst (Controller.ReadOne l2r 4 (c2, snd s1)) = Returns (Int 2) /\
    fst (Controller.ReadOne l2r 6 (c2, snd s1))
      = Returns (Float (time_reply env (List.length bench_trace + 3)
                        - time_reply env (List.length bench_trace))%float).
Proof.
  cbv zeta.
  apply (acquire_then_read (bench "BOX" 6 reply_a) l2r 1%float
           bench_controller bench_trace (Boxcars.Session "127.0.0.1" 8004 6)
           [1%float; nan; 3%float; 5%float] [100; 200; 300; 400]
           [2%float; 4%float; nan; 8%float] [150; 250; 350; 450]);
    try reflexivity; discriminate.
Defined.

(** ** What no call changes *)

Lemma boxcars_configuration_call_op env np o c tr :
  boxcars_configuration
    (Controller.zhi (fst (snd (Controller.call_op env np o (c, tr)))))
  = boxcars_configuration (Controller.zhi c).
Proof.
  destruct (call_op_zhi env np o c tr) as [E | [[t E] | [[t E] | [_ E]]]];
    cbv zeta in E; pose proof (f_equal fst E) as E1;
    cbn [fst snd] in E1; rewrite E1.
  - reflexivity.
  - rewrite startAcq_run, pollData_run. simpl.
    destruct (Boxcars.daq (Controller.zhi c)); reflexivity.
  - rewrite pollData_run.
    destruct (Boxcars.daq (Controller.zhi c)); reflexivity.
  - rewrite close_run.
    destruct (Boxcars.daq (Controller.zhi c)); reflexivity.
Qed.

Lemma configuration_call_op env np o c tr :
  configuration (fst (snd (Controller.call_op env np o (c, tr))))
  = configuration c.
Proof.
  pose proof (boxcars_configuration_call_op env np o c tr) as Hb.
  unfold configuration. rewrite Hb. clear Hb.
  destruct o; try reflexivity; simpl.
  - unfold Controller.forget, bind.
    destruct (Z.eqb_spec axis 0) as [->|Hne].
    + rewrite ReadOne_axis_0, set_zhi_same.
      destruct (Boxcars.readData np (Controller.zhi c)); simpl;
        [destruct (py_index a 0)|]; reflexivity.
    + rewrite (ReadOne_other_axis np axis c tr Hne).
      destruct (py_index (Controller.data c) axis); reflexivity.
  - unfold Controller.StartOne. destruct (axis =? 0); [|reflexivity].
    unfold Controller.on_zhi. simpl.
    destruct (Boxcars.startAcq env value (Controller.zhi c, tr))
      as [r [z tr']]. reflexivity.
  - unfold Controller.on_zhi. simpl.
    destruct (Boxcars.startAcq env intTime (Controller.zhi c, tr))
      as [r [z tr']]. reflexivity.
  - unfold Controller.on_zhi. simpl.
    destruct (Boxcars.pollData env intTime (Controller.zhi c, tr))
      as [r [z tr']]. reflexivity.
  - unfold Controller.forget, Controller.on_zhi, bind, ret. simpl.
    destruct (Boxcars.readData np (Controller.zhi c)); reflexivity.
  - unfold Controller.on_zhi. simpl.
    destruct (Boxcars.close (Controller.zhi c, tr)) as [r [z tr']].
    reflexivity.
Qed.

(** X16. No client call, returning or raising, changes what the
    constructors fixed: the seven controller properties, the device
    name, interface, time-out, device type, options and clock base of
    the [boxcars] object, and the controller's own [isAquiring], which
    is [False] from construction on and is never the flag that
    [StateOne] reads. *)
Theorem configuration_constant env np ops :
  (forall s, configuration (fst (Controller.run env np ops s))
             = configuration (fst s)) /\
  (forall IP port dev ifc settings repRate tmo c tr0,
     Controller.init env IP port dev ifc settings repRate tmo []
       = (Returns c, tr0) ->
     configuration (fst (Controller.run env np ops (c, tr0)))
     = (IP, port, dev, ifc, settings, repRate, tmo, false,
        (dev, ifc, tmo,
         getByte_reply env ("/" ++ dev ++ "/features/devtype")%string,
         getByte_reply env ("/" ++ dev ++ "/features/options")%string,
         getDouble_reply env ("/" ++ dev ++ "/clockbase")%string))).
Proof.
  assert (Hrun : forall s, configuration (fst (Controller.run env np ops s))
                           = configuration (fst s)).
  { induction ops as [|o ops IH]; intros [c tr]; simpl; [reflexivity|].
    rewrite IH. apply configuration_call_op. }
  split; [exact Hrun|].
  intros IP port dev ifc settings repRate tmo c tr0 Hinit.
  rewrite Hrun. simpl.
  unfold Controller.init, bind, emit, ret in Hinit. simpl in Hinit.
  rewrite init_cases in Hinit.
  destruct (negb (re_search "BOX" (device_options env dev)));
    [discriminate|].
  destruct (negb (connection_api_level env =? 6)); [discriminate|].
  simpl in Hinit. injection Hinit as <- _. reflexivity.
Qed.

Lemma configuration_constant_witness :
  configuration
    (fst (Controller.run (bench "BOX" 6 reply_a) l2r
            [Controller.CallStartOne 0 1%float; Controller.CallReadOne 0;
             Controller.CallZhiClose; Controller.CallStartOne 0 1%float]
            (bench_controller, bench_trace)))
  = ("127.0.0.1", 8004, "dev2192", "1GbE", "PumpUnpumpBoxCar", 1500, 30,
     false,
     ("dev2192", "1GbE", 30,
      getByte_reply (bench "BOX" 6 reply_a) "/dev2192/features/devtype",
      getByte_reply (bench "BOX" 6 reply_a) "/dev2192/features/options",
      getDouble_reply (bench "BOX" 6 reply_a) "/dev2192/clockbase")).
Proof.
  apply (proj2 (configuration_constant (bench "BOX" 6 reply_a) l2r
                  [Controller.CallStartOne 0 1%float; Controller.CallReadOne 0;
                   Controller.CallZhiClose; Controller.CallStartOne 0 1%float])
           "127.0.0.1" 8004 "dev2192" "1GbE" "PumpUnpumpBoxCar" 1500 30).
  vm_compute. reflexivity.
Defined.

(** X17. On a device with the BOX option reached at API level 6 the
    constructor returns after twelve calls, the last three being [sync]
    and the two subscriptions.  The new object holds the session, the
    device's answers for type, options and clock base, no [data], no
    clock readings, and [isAcquiring] clear. *)
Theorem init_returns env ip port api_level dev ifc settings repRate tmo tr :
  re_search "BOX" (device_options env dev) = true ->
  connection_api_level env = 6 ->
  Boxcars.init env ip port api_level dev ifc settings repRate tmo tr =
    (Returns
       {| Boxcars.daq := Some (Boxcars.Session ip port api_level);
          Boxcars.device := dev; Boxcars.iface := ifc;
          Boxcars.timeOut := tmo;
          Boxcars.acqStartTime := None; Boxcars.acqEndTime := None;
          Boxcars.isAcquiring := false;
          Boxcars.devtype :=
            getByte_reply env ("/" ++ dev ++ "/features/devtype")%string;
          Boxcars.options :=
            getByte_reply env ("/" ++ dev ++ "/features/options")%string;
          Boxcars.clock :=
            getDouble_reply env ("/" ++ dev ++ "/clockbase")%string;
          Boxcars.data := None |},
     tr ++ [ZiDAQServer ip port api_level; ConnectDevice dev ifc; Connect;
            GetDefaultSettingsPath;
            LoadSettings dev (path_join (default_settings_path env) settings);
            GetByte ("/" ++ dev ++ "/features/devtype")%string;
            GetByte ("/" ++ dev ++ "/features/options")%string;
            GetDouble ("/" ++ dev ++ "/clockbase")%string;
            GetConnectionAPILevel; Sync;
            Subscribe ("/" ++ dev ++ "/boxcars/0/sample")%string;
            Subscribe ("/" ++ dev ++ "/boxcars/1/sample")%string]).
Proof.
  intros Hbox Hapi. rewrite init_cases, Hbox, Hapi. reflexivity.
Qed.

Lemma init_returns_witness :
  Boxcars.init (bench "BOX" 6 reply_a) "127.0.0.1" 8004 6 "dev2192" "1GbE"
    "PumpUnpumpBoxCar" 1500 30 []
  = (Returns (Controller.zhi bench_controller),
     [ZiDAQServer "127.0.0.1" 8004 6; ConnectDevice "dev2192" "1GbE"; Connect;
      GetDefaultSettingsPath;
      LoadSettings "dev2192"
        (path_join (default_settings_path (bench "BOX" 6 reply_a))
           "PumpUnpumpBoxCar");
      GetByte "/dev2192/features/devtype";
      GetByte "/dev2192/features/options";
      GetDouble "/dev2192/clockbase";
      GetConnectionAPILevel; Sync;
      Subscribe "/dev2192/boxcars/0/sample";
      Subscribe "/dev2192/boxcars/1/sample"]).
Proof.
  apply (init_returns (bench "BOX" 6 reply_a) "127.0.0.1" 8004 6 "dev2192"
           "1GbE" "PumpUnpumpBoxCar" 1500 30 []); reflexivity.
Defined.

(** ** Order of the calls: connect, subscribe, poll, reduce *)

Lemma boxcars_configuration_run env np ops s :
  boxcars_configuration (Controller.zhi (fst (Controller.run env np ops s)))
  = boxcars_configuration (Controller.zhi (fst s)).
Proof.
  revert s; induction ops as [|o ops IH]; intros [c tr]; simpl;
    [reflexivity|].
  rewrite IH. apply boxcars_configuration_call_op.
Qed.

Lemma controller_init_configuration
    env IP port dev ifc settings repRate tmo c tr0 :
  Controller.init env IP port dev ifc settings repRate tmo []
    = (Returns c, tr0) ->
  boxcars_configuration (Controller.zhi c)
  = (dev, ifc, tmo,
     getByte_reply env ("/" ++ dev ++ "/features/devtype")%string,
     getByte_reply env ("/" ++ dev ++ "/features/options")%string,
     getDouble_reply env ("/" ++ dev ++ "/clockbase")%string).
Proof.
  unfold Controller.init, bind, emit, ret. simpl. rewrite init_cases.
  destruct (negb (re_search "BOX" (device_options env dev)));
    [discriminate|].
  destruct (negb (connection_api_level env =? 6)); [discriminate|].
  simpl. intros H. injection H as <- _. reflexivity.
Qed.

Lemma StartOne_live_run env value c tr h :
  Boxcars.daq (Controller.zhi c) = Some h ->
  Controller.StartOne env 0 value (c, tr) =
    (Returns tt,
     (Controller.set_zhi
        {| Boxcars.daq := Some h;
           Boxcars.device := Boxcars.device (Controller.zhi c);
           Boxcars.iface := Boxcars.iface (Controller.zhi c);
           Boxcars.timeOut := Boxcars.timeOut (Controller.zhi c);
           Boxcars.acqStartTime := Some (time_reply env (List.length tr));
           Boxcars.acqEndTime := Some (time_reply env (List.length tr + 3));
           Boxcars.isAcquiring := false;
           Boxcars.devtype := Boxcars.devtype (Controller.zhi c);
           Boxcars.options := Boxcars.options (Controller.zhi c);
           Boxcars.clock := Boxcars.clock (Controller.zhi c);
           Boxcars.data := Some (poll_reply env (List.length tr + 2)) |} c,
      tr ++ [Time; Flush; Poll value 500 4 false; Time])).
Proof.
  intros Hd. unfold Controller.StartOne, Controller.on_zhi. simpl.
  rewrite startAcq_run, pollData_run. simpl. rewrite Hd. simpl.
  unfold Boxcars.set_acqEndTime, Boxcars.set_isAcquiring, Boxcars.set_data,
    Boxcars.set_acqStartTime. simpl.
  rewrite ?Hd, length_app, <- app_assoc. simpl.
  replace (S (S (List.length tr + 1))) with (List.length tr + 3)%nat by lia.
  replace (S (List.length tr + 1)) with (List.length tr + 2)%nat by lia.
  reflexivity.
Qed.

(** C8. From a controller whose constructor returned, through any
    sequence of client calls.  The trace starts with the constructor's
    calls, where [connect] (position 3) precedes the subscriptions to
    boxcar 0 and boxcar 1 (positions 11 and 12); nothing after them
    opens a session, connects or subscribes; every [poll] comes later
    than both subscriptions; and whenever [readData] returns, the data
    it reduced is the reply to the latest [poll] of the trace.  While
    the object has its [daq], a further [StartOne] on axis 0 returns
    after issuing [flush], [poll] and the two clock readings at the end
    of the trace, that [poll] is then the latest one and its reply is
    stored; and if the reply holds, for the device, two channels with as
    many stamps as values and at least one each, [readData] returns the
    reduction of exactly that reply over the common window. *)
Theorem calls_in_order env np IP port dev ifc settings repRate tmo ops c tr0 :
  Controller.init env IP port dev ifc settings repRate tmo []
    = (Returns c, tr0) ->
  let s := Controller.run env np ops (c, tr0) in
  nth_error (snd s) 3 = Some Connect /\
  nth_error (snd s) 11 = Some (Subscribe (Boxcars.sample_path dev 0)) /\
  nth_error (snd s) 12 = Some (Subscribe (Boxcars.sample_path dev 1)) /\
  (exists rest, snd s = tr0 ++ rest /\ no_setup rest) /\
  (forall i len tmo' flags flat,
     nth_error (snd s) i = Some (Poll len tmo' flags flat) -> (12 < i)%nat) /\
  (forall out,
     Boxcars.readData np (Controller.zhi (fst s)) = Returns out ->
     exists k len,
       last_poll (snd s) = Some k /\
       nth_error (snd s) k = Some (Poll len 500 4 false) /\
       Boxcars.data (Controller.zhi (fst s)) = Some (poll_reply env k)) /\
  (forall value,
     Boxcars.daq (Controller.zhi (fst s)) <> None ->
     let n := List.length (snd s) in
     let r := Controller.StartOne env 0 value s in
     fst r = Returns tt /\
     snd (snd r) = snd s ++ [Time; Flush; Poll value 500 4 false; Time] /\
     nth_error (snd (snd r)) (n + 2) = Some (Poll value 500 4 false) /\
     last_poll (snd (snd r)) = Some (n + 2)%nat /\
     Boxcars.data (Controller.zhi (fst (snd r)))
       = Some (poll_reply env (n + 2)) /\
     forall v1 t1 v2 t2,
       poll_reply env (n + 2) = poll_result dev v1 t1 v2 t2 ->
       List.length t1 = List.length v1 ->
       List.length t2 = List.length v2 ->
       t1 <> [] -> t2 <> [] ->
       let lo := Z.max (hd 0 t1) (hd 0 t2) in
       let hi := Z.min (last t1 0) (last t2 0) in
       let w1 := filter (kept lo hi) (combine t1 v1) in
       let w2 := filter (kept lo hi) (combine t2 v2) in
       Boxcars.readData np (Controller.zhi (fst (snd r)))
       = Returns
           (reduction np
              (getDouble_reply env ("/" ++ dev ++ "/clockbase")%string)
              (time_reply env (n + 3) - time_reply env n)%float
              (map fst w1) (map snd w1) (map snd w2))).
Proof.
  intros Hinit s.
  destruct (controller_init_returns _ _ _ _ _ _ _ _ _ _ Hinit)
    as (Htr0 & Hdata & _ & _).
  assert (Hinv : acquiring_inv env tr0 (Controller.zhi (fst s)) (snd s)).
  { apply acquiring_inv_run. simpl. split.
    - exists []. split; [now rewrite app_nil_r | reflexivity].
    - left. exact Hdata. }
  destruct Hinv as [[rest [Hs Hrest]] Hd].
  assert (Hpre : forall i, (i < 14)%nat ->
             nth_error (snd s) i = nth_error tr0 i).
  { intros i Hi. rewrite Hs. apply nth_error_app1.
    rewrite Htr0. simpl. exact Hi. }
  split; [rewrite Hpre by lia; rewrite Htr0; reflexivity|].
  split; [rewrite Hpre by lia; rewrite Htr0; reflexivity|].
  split; [rewrite Hpre by lia; rewrite Htr0; reflexivity|].
  split; [exists rest; split; assumption|].
  split.
  { intros i len tmo' flags flat Hi.
    destruct (Nat.lt_ge_cases 12 i) as [|Hle]; [assumption|].
    rewrite Hpre in Hi by lia. rewrite Htr0 in Hi.
    do 13 (destruct i as [|i]; [discriminate Hi|]). lia. }
  split.
  { intros out Hout.
    destruct Hd as [Hn | [Hn | [k [len [Hk [Hp Hn]]]]]].
    + unfold Boxcars.readData, Boxcars.sample_value, Boxcars.self_data in Hout.
      rewrite Hn in Hout. discriminate.
    + unfold Boxcars.readData, Boxcars.sample_value, Boxcars.self_data in Hout.
      rewrite Hn in Hout. discriminate.
    + exists k, len. repeat split; assumption. }
  intros value Hdaq n r.
  pose proof (boxcars_configuration_run env np ops (c, tr0)) as Hcfg.
  fold s in Hcfg. cbn [fst] in Hcfg.
  rewrite (controller_init_configuration _ _ _ _ _ _ _ _ _ _ Hinit) in Hcfg.
  unfold boxcars_configuration in Hcfg.
  injection Hcfg as Hdev _ _ _ _ Hclk.
  subst r n. destruct s as [c1 tr1]. cbn [fst snd] in *.
  destruct (Boxcars.daq (Controller.zhi c1)) as [h|] eqn:Eh;
    [|contradiction].
  rewrite (StartOne_live_run env value c1 tr1 h Eh). cbn [fst snd].
  split; [reflexivity|]. split; [reflexivity|].
  split.
  { rewrite nth_error_app2 by lia.
    replace (List.length tr1 + 2 - List.length tr1)%nat with 2%nat by lia.
    reflexivity. }
  split.
  { rewrite last_poll_app. simpl. f_equal. lia. }
  split; [reflexivity|].
  intros v1 t1 v2 t2 Hp L1 L2 N1 N2.
  cbn [Controller.zhi Controller.set_zhi].
  match goal with
  | |- Boxcars.readData np ?z = _ => set (b := z)
  end.
  assert (Hb : Boxcars.data b
               = Some (poll_result (Boxcars.device b) v1 t1 v2 t2)).
  { unfold b. cbn [Boxcars.data Boxcars.device]. now rewrite Hp, Hdev. }
  destruct (poll_result_channels b v1 t1 v2 t2 Hb) as (C1 & C2 & C3 & C4).
  rewrite (readData_wellformed np b v1 t1 v2 t2 C1 C2 C3 C4 L1 L2 N1 N2).
  unfold b. cbn [Boxcars.acqEndTime Boxcars.acqStartTime Boxcars.clock].
  rewrite Hclk. reflexivity.
Qed.

Lemma calls_in_order_witness :
  let env := bench "BOX" 6 reply_a in
  let s := Controller.run env l2r
             [Controller.CallStartOne 0 1%float; Controller.CallReadOne 0;
              Controller.CallReadOne 1]
             (bench_controller, bench_trace) in
  let r := Controller.StartOne env 0 2%float s in
  nth_error (snd s) 3 = Some Connect /\
  nth_error (snd s) 11 = Some (Subscribe "/dev2192/boxcars/0/sample") /\
  nth_error (snd s) 12 = Some (Subscribe "/dev2192/boxcars/1/sample") /\
  (12 < 16)%nat /\
  (exists k len,
     last_poll (snd s) = Some k /\
     nth_error (snd s) k = Some (Poll len 500 4 false) /\
     Boxcars.data (Controller.zhi (fst s)) = Some (poll_reply env k)) /\
  fst r = Returns tt /\
  snd (snd r) = snd s ++ [Time; Flush; Poll 2 500 4 false; Time] /\
  nth_error (snd (snd r)) 20 = Some (Poll 2 500 4 false) /\
  last_poll (snd (snd r)) = Some 20%nat /\
  Boxcars.readData l2r (Controller.zhi (fst (snd r)))
  = Returns (reduction l2r 1800000000%float (21 - 18)%float
               [300; 400] [3%float; 5%float] [2%float; 4%float]).
Proof.
  cbv zeta.
  pose proof (calls_in_order (bench "BOX" 6 reply_a) l2r "127.0.0.1" 8004
                "dev2192" "1GbE" "PumpUnpumpBoxCar" 1500 30
                [Controller.CallStartOne 0 1%float; Controller.CallReadOne 0;
                 Controller.CallReadOne 1]
                bench_controller bench_trace bench_controller_init) as H.
  cbv zeta in H.
  destruct H as (H3 & H11 & H12 & _ & Hpoll & Hread & Hnext).
  split; [exact H3|]. split; [exact H11|]. split; [exact H12|].
  split.
  { apply (Hpoll 16%nat 1%float 500 4 false). vm_compute. reflexivity. }
  split.
  { apply (Hread [Float 4; Float 3; Float 1; Float 1; Int 2; Float 18000000;
                  Float 3; Float (4 / 3); Float 1]).
    vm_compute. reflexivity. }
  destruct (Hnext 2%float ltac:(vm_compute; discriminate))
    as (R1 & R2 & R3 & R4 & _ & R6).
  split; [exact R1|]. split; [exact R2|]. split; [exact R3|].
  split; [exact R4|].
  apply (R6 [1%float; nan; 3%float; 5%float] [100; 200; 300; 400]
            [2%float; 4%float; nan; 8%float] [150; 250; 350; 450]);
    try reflexivity; discriminate.
Defined.
